(** * ytdlp-service/app.py: the download endpoint handler

    A shallow embedding of the Flask application in [ytdlp-service/app.py]
    and the properties of its two views, [health] and [download].

    The views are straight-line Python with early returns, two nested
    [with] blocks and one [try]/[except]; they are embedded in a small
    state, trace and exception monad.  The collaborators the views call
    (Flask's request parsing and [send_file], [tempfile], [os.path],
    [pathlib] and yt-dlp) are modelled by the operations of the sections
    below; the extraction pipeline and the random directory names are
    supplied by an [environment].

    What the model fixes about the collaborators:
    - exceptions are instances of [Exception]: [DownloadError] or any other
      subclass; [KeyboardInterrupt], [SystemExit] and the like, which
      [except Exception] does not catch, are raised only in the module
      [Interrupt], which adds them to the same views;
    - the entries of a temporary directory are regular files, the pipeline
      writes only into the directory of its output template, and removing
      a directory tree succeeds;
    - [send_file] opens the file and hands the open file to the response;
      the WSGI layer reads it when the response is sent, and an open
      descriptor keeps a file's data after its path is unlinked (POSIX);
    - entering and leaving [yt_dlp.YoutubeDL] has no effect of its own:
      what the pipeline does is the outcome of [run_pipeline]. *)

From Stdlib Require Import String List ZArith Bool Ascii Lia.
From Stdlib Require Import Strings.Byte.
From Stdlib Require Import Floats.SpecFloat.
From stdpp Require Import base option gmap strings list.

Local Open Scope string_scope.
Local Open Scope list_scope.
Set Warnings "-register-all".

(** ** Python values *)

Module Py.

(** The values [json.loads] can produce. A [dict] is kept as its items in
    insertion order; its keys are pairwise distinct. *)
Inductive pyval : Type :=
| PyNone
| PyBool (b : bool)
| PyInt (z : Z)
| PyFloat (f : spec_float)
| PyStr (s : string)
| PyList (l : list pyval)
| PyDict (d : list (string * pyval)).

(** [bool(v)], as used by [if not url]. *)
Definition truthy (v : pyval) : bool :=
  match v with
  | PyNone => false
  | PyBool b => b
  | PyInt z => negb (Z.eqb z 0)
  | PyFloat (S754_zero _) => false
  | PyFloat _ => true
  | PyStr s => negb (String.eqb s "")
  | PyList l => match l with [] => false | _ :: _ => true end
  | PyDict d => match d with [] => false | _ :: _ => true end
  end.

(** [type(v).__name__] *)
Definition type_name (v : pyval) : string :=
  match v with
  | PyNone => "NoneType"
  | PyBool _ => "bool"
  | PyInt _ => "int"
  | PyFloat _ => "float"
  | PyStr _ => "str"
  | PyList _ => "list"
  | PyDict _ => "dict"
  end.

(** [d.get(k)] on a dict: the value, or [None]. *)
Fixpoint dict_get (d : list (string * pyval)) (k : string) : pyval :=
  match d with
  | [] => PyNone
  | (k', v) :: d' => if String.eqb k' k then v else dict_get d' k
  end.

(** [s.startswith(p)] *)
Fixpoint startswith (s p : string) {struct p} : bool :=
  match p with
  | EmptyString => true
  | String c p' =>
      match s with
      | EmptyString => false
      | String c' s' => Ascii.eqb c' c && startswith s' p'
      end
  end.

(** [s[n:]] for [n >= 0] *)
Fixpoint slice_from (n : nat) (s : string) : string :=
  match n with
  | O => s
  | S n' => match s with EmptyString => EmptyString | String _ s' => slice_from n' s' end
  end.

(** [fnmatch] restricted to the pattern syntax the application uses:
    literal characters and [*]. *)
Fixpoint fnmatch (pat : string) : string -> bool :=
  match pat with
  | EmptyString => fun s => String.eqb s ""
  | String c p =>
      if Ascii.eqb c "*" then
        fix star (s : string) : bool :=
          fnmatch p s || match s with EmptyString => false | String _ s' => star s' end
      else
        fun s =>
          match s with
          | EmptyString => false
          | String c' s' => Ascii.eqb c c' && fnmatch p s'
          end
  end.

(** Exceptions. [DownloadError] is [yt_dlp.utils.DownloadError];
    [OtherError cls msg] is an instance of any other subclass of
    [Exception], of class [cls]. [msg] is [str(e)]. *)
Inductive exn : Type :=
| DownloadError (msg : string)
| OtherError (cls : string) (msg : string).

Definition str_exn (e : exn) : string :=
  match e with
  | DownloadError msg => msg
  | OtherError _ msg => msg
  end.

(** The classes named in the [except] clauses of the application. *)
Inductive exn_class : Type := ClsDownloadError | ClsException.

Definition isinstance (e : exn) (c : exn_class) : bool :=
  match c, e with
  | ClsException, _ => true
  | ClsDownloadError, DownloadError _ => true
  | ClsDownloadError, OtherError _ _ => false
  end.

End Py.
Export Py.

(** ** The world the views run in *)

Definition bytes : Type := list Byte.byte.

(** A file path is a directory and the name of an entry in it:
    [os.path.join(d, n)] and [str(Path(d) / n)] both build [(d, n)]. *)
Definition path : Type := (string * string)%type.

Definition os_path_join (d n : string) : path := (d, n).

(** A directory's entries, in the order the file system lists them. *)
Definition listing : Type := list (string * bytes).

Fixpoint lookup_entry (n : string) (l : listing) : option bytes :=
  match l with
  | [] => None
  | (n', data) :: l' => if String.eqb n' n then Some data else lookup_entry n l'
  end.

(** [fs] maps a directory to its entries (regular files). [open_files] maps
    an open descriptor to the data of the file it was opened on: unlinking
    the path does not close the descriptor. *)
Record world : Type := World {
  fs : gmap string listing;
  open_files : gmap nat bytes
}.

Definition set_fs (f : gmap string listing -> gmap string listing) (w : world) : world :=
  {| fs := f (fs w); open_files := open_files w |}.

Definition set_open_files (f : gmap nat bytes -> gmap nat bytes) (w : world) : world :=
  {| fs := fs w; open_files := f (open_files w) |}.

(** The options dictionary given to [yt_dlp.YoutubeDL]. *)
Record postprocessor : Type := Postprocessor {
  key : string;
  preferredcodec : string;
  preferredquality : string
}.

Record YoutubeDL_opts : Type := YoutubeDLOpts {
  format : string;
  postprocessors : list postprocessor;
  outtmpl : path;
  quiet : bool;
  no_warnings : bool;
  extract_flat : bool
}.

(** Log records, one constructor per f-string of the application. *)
Inductive log_record : Type :=
| LogDownloading (url : pyval)      (* f'Downloading audio from: {url}' *)
| LogComplete (audio_file : path)   (* f'Download complete: {audio_file}' *)
| LogDownloadError (msg : string)   (* f'yt-dlp download error: {str(e)}' *)
| LogUnexpected (msg : string).     (* f'Unexpected error: {str(e)}' *)

Inductive event : Type :=
| EvLogInfo (r : log_record)
| EvLogError (r : log_record)
| EvMkdtemp (d : string)
| EvExtractInfo (opts : YoutubeDL_opts) (url : pyval)
| EvOpen (p : path) (fd : nat)
| EvRmtree (d : string)
| EvStartResponse (status : nat)
| EvRead (fd : nat)
| EvClose (fd : nat).

(** What the process is given from outside: the temporary-file directory,
    the sequence of random names [tempfile] draws, and the extraction
    pipeline.  [run_pipeline opts url] gives the entries the pipeline leaves
    in the directory of [outtmpl opts] and the exception it raises, if any
    (constructing the [YoutubeDL] object and [extract_info] together). *)
Record environment : Type := Environment {
  gettempdir : string;
  random_names : list string;
  run_pipeline : YoutubeDL_opts -> pyval -> listing * option exn
}.

(** ** The monad: state, trace of events, exceptions *)

Definition M (A : Type) : Type := world -> (A + exn) * world * list event.

Definition ret {A} (a : A) : M A := fun w => (inl a, w, []).

Definition raise {A} (e : exn) : M A := fun w => (inr e, w, []).

Definition bind {A B} (m : M A) (f : A -> M B) : M B :=
  fun w =>
    match m w with
    | (inl a, w1, t1) => let '(r, w2, t2) := f a w1 in (r, w2, t1 ++ t2)
    | (inr e, w1, t1) => (inr e, w1, t1)
    end.

Notation "x <- m ;; k" := (bind m (fun x => k))
  (at level 100, m at next level, right associativity).
Notation "m ;;; k" := (bind m (fun _ => k))
  (at level 100, right associativity).

Definition emit (e : event) : M unit := fun w => (inl tt, w, [e]).

(** [with enter() as r: body]: [exit] runs on every way out of [body]; an
    exception raised by [exit] replaces the outcome of [body]. *)
Definition with_ {R A} (enter : M R) (exit : R -> M unit) (body : R -> M A) : M A :=
  r <- enter ;;
  fun w =>
    let '(res, w1, t1) := body r w in
    match exit r w1 with
    | (inl _, w2, t2) => (res, w2, t1 ++ t2)
    | (inr e, w2, t2) => (inr e, w2, t1 ++ t2)
    end.

(** [try: body  except C1 as e: h1(e)  except C2 as e: h2(e) ...]: the
    first clause whose class the exception is an instance of handles it;
    with no such clause the exception propagates. *)
Fixpoint select_clause {A} (e : exn) (clauses : list (exn_class * (exn -> M A)))
  : option (exn -> M A) :=
  match clauses with
  | [] => None
  | (c, h) :: rest => if isinstance e c then Some h else select_clause e rest
  end.

Definition try_except {A} (body : M A) (clauses : list (exn_class * (exn -> M A))) : M A :=
  fun w =>
    match body w with
    | (inl a, w1, t1) => (inl a, w1, t1)
    | (inr e, w1, t1) =>
        match select_clause e clauses with
        | Some h => let '(r, w2, t2) := h e w1 in (r, w2, t1 ++ t2)
        | None => (inr e, w1, t1)
        end
    end.

(** ** Flask: requests, responses, [jsonify], [send_file], the WSGI layer *)

(** What [request.get_json()] does on the request: it returns the parsed
    body, or raises (a werkzeug [HTTPException], a subclass of [Exception])
    when the body is not JSON. *)
Inductive json_outcome : Type :=
| JsonOk (data : pyval)
| JsonRaises (cls msg : string).

Record Request : Type := MkRequest {
  authorization : option string;   (* the Authorization header, if sent *)
  json_body : json_outcome
}.

Definition with_authorization (a : option string) (r : Request) : Request :=
  {| authorization := a; json_body := json_body r |}.

(** [request.headers.get('Authorization', default)] *)
Definition headers_get_Authorization (r : Request) (default : string) : string :=
  match authorization r with
  | Some v => v
  | None => default
  end.

Definition get_json (r : Request) : M pyval :=
  match json_body r with
  | JsonOk data => ret data
  | JsonRaises cls msg => raise (OtherError cls msg)
  end.

(** [data.get(k)]: [data] has a [get] method only when it is a dict. *)
Definition py_get (data : pyval) (k : string) : M pyval :=
  match data with
  | PyDict d => ret (dict_get d k)
  | v => raise (OtherError "AttributeError"
                  ("'" +:+ type_name v +:+ "' object has no attribute 'get'"))
  end.

(** [BodyJson obj] is the JSON object with the fields of [obj], listed as
    the dict given to [jsonify] is written; the order in which the fields
    are serialised is not part of it. *)
Inductive body : Type :=
| BodyJson (obj : list (string * string))
| BodyFile (fd : nat).            (* an open file, read when the response is sent *)

Record response : Type := Response {
  status : nat;
  mimetype : string;
  attachment : option string;     (* Content-Disposition: attachment; filename=... *)
  content : body
}.

Definition jsonify (obj : list (string * string)) : response :=
  {| status := 200; mimetype := "application/json"; attachment := None;
     content := BodyJson obj |}.

(** A view returning the tuple [(response, status)]. *)
Definition with_status (r : response) (code : nat) : response :=
  {| status := code; mimetype := mimetype r; attachment := attachment r;
     content := content r |}.

(** [send_file(path, mimetype=..., as_attachment=..., download_name=...)]
    opens the file and wraps the open file in the response; it does not read
    it. *)
Definition send_file (p : path) (mime : string) (as_attachment : bool)
    (download_name : string) : M response :=
  fun w =>
    match fs w !! p.1 ≫= lookup_entry p.2 with
    | Some data =>
        let fd := fresh (dom (open_files w)) in
        (inl {| status := 200; mimetype := mime;
                attachment := if as_attachment then Some download_name else None;
                content := BodyFile fd |},
         set_open_files (insert fd data) w,
         [EvOpen p fd])
    | None =>
        (inr (OtherError "FileNotFoundError" "[Errno 2] No such file or directory"), w, [])
    end.

(** What goes on the wire once a view has returned. *)
Inductive wire_body : Type :=
| WireJson (obj : list (string * string))
| WireBytes (data : bytes).

Record wire_response : Type := WireResponse {
  wire_status : nat;
  wire_mimetype : string;
  wire_attachment : option string;
  wire_content : wire_body
}.

(** The WSGI layer sends the status line and headers, then iterates over
    the body; a file body is read from its descriptor at that point and
    closed afterwards. *)
Definition wsgi_send (r : response) : world -> wire_response * world * list event :=
  fun w =>
    match content r with
    | BodyJson obj =>
        ({| wire_status := status r; wire_mimetype := mimetype r;
            wire_attachment := attachment r; wire_content := WireJson obj |},
         w, [EvStartResponse (status r)])
    | BodyFile fd =>
        ({| wire_status := status r; wire_mimetype := mimetype r;
            wire_attachment := attachment r;
            wire_content := WireBytes (default [] (open_files w !! fd)) |},
         set_open_files (delete fd) w,
         [EvStartResponse (status r); EvRead fd; EvClose fd])
    end.

(** ** [os.path], [pathlib], [tempfile], [logging], yt-dlp *)

Definition os_path_exists (p : path) : M bool :=
  fun w =>
    (inl (match fs w !! p.1 ≫= lookup_entry p.2 with Some _ => true | None => false end),
     w, []).

(** [list(Path(d).glob(pat))]: the entries of [d] whose name matches, in
    listing order. *)
Definition glob (d pat : string) : M (list path) :=
  fun w =>
    (inl (map (fun e => os_path_join d e.1)
            (List.filter (fun e => fnmatch pat e.1) (default [] (fs w !! d)))),
     w, []).

(** [tempfile.mkdtemp], as called by [TemporaryDirectory()]: the first
    candidate name that does not exist yet is created, empty. *)
Definition tmp_candidate (env : environment) (name : string) : string :=
  gettempdir env +:+ "/tmp" +:+ name.

Definition mkdtemp (env : environment) : M string :=
  fun w =>
    match List.find (fun d => bool_decide (fs w !! d = None))
            (map (tmp_candidate env) (random_names env)) with
    | Some d => (inl d, set_fs (insert d []) w, [EvMkdtemp d])
    | None =>
        (inr (OtherError "FileExistsError"
                "[Errno 17] No usable temporary directory name found"), w, [])
    end.

(** [TemporaryDirectory.cleanup]: the directory and its contents go. *)
Definition rmtree (d : string) : M unit :=
  fun w => (inl tt, set_fs (delete d) w, [EvRmtree d]).

Definition TemporaryDirectory {A} (env : environment) (body : string -> M A) : M A :=
  with_ (mkdtemp env) rmtree body.

Definition logger_info (r : log_record) : M unit := emit (EvLogInfo r).
Definition logger_error (r : log_record) : M unit := emit (EvLogError r).

(** [with yt_dlp.YoutubeDL(opts) as ydl] *)
Definition YoutubeDL {A} (opts : YoutubeDL_opts) (body : YoutubeDL_opts -> M A) : M A :=
  with_ (ret opts) (fun _ => ret tt) body.

(** [ydl.extract_info(url, download=True)]: blocks until the pipeline is
    done, leaves its files in the directory of the output template, and
    returns or raises. *)
Definition extract_info (env : environment) (ydl : YoutubeDL_opts) (url : pyval) : M unit :=
  fun w =>
    let '(files, outcome) := run_pipeline env ydl url in
    let w' := set_fs (insert (outtmpl ydl).1 files) w in
    match outcome with
    | None => (inl tt, w', [EvExtractInfo ydl url])
    | Some e => (inr e, w', [EvExtractInfo ydl url])
    end.

(** ** app.py *)

Definition ydl_opts (output_template : path) : YoutubeDL_opts :=
  {| format := "bestaudio/best";
     postprocessors := [ {| key := "FFmpegExtractAudio";
                            preferredcodec := "mp3";
                            preferredquality := "192" |} ];
     outtmpl := output_template;
     quiet := true;
     no_warnings := true;
     extract_flat := false |}.

(** [health()] *)
Definition health : M response :=
  ret (jsonify [("status", "healthy");
                ("service", "yt-dlp-audio-service");
                ("version", "1.0")]).

(** The body of the [try] statement of [download()] (lines 41-90). *)
Definition download_body (env : environment) (request : Request) : M response :=
  data <- get_json request ;;
  url <- py_get data "url" ;;
  if negb (truthy url) then
    ret (with_status (jsonify [("error", "No URL provided")]) 400)
  else
    logger_info (LogDownloading url) ;;;
    TemporaryDirectory env (fun temp_dir =>
      let output_template := os_path_join temp_dir "audio.%(ext)s" in
      YoutubeDL (ydl_opts output_template) (fun ydl =>
        extract_info env ydl url ;;;
        let audio_file := os_path_join temp_dir "audio.mp3" in
        found <- os_path_exists audio_file ;;
        audio_file <-
          (if negb found then
             files <- glob temp_dir "audio.*" ;;
             match files with
             | f :: _ => ret f
             | [] => raise (OtherError "Exception" "Downloaded file not found")
             end
           else ret audio_file) ;;
        logger_info (LogComplete audio_file) ;;;
        send_file audio_file "audio/mpeg" true "audio.mp3")).

(** The two [except] clauses (lines 92-104). *)
Definition on_DownloadError (e : exn) : M response :=
  logger_error (LogDownloadError (str_exn e)) ;;;
  ret (with_status (jsonify [("error", "Download failed");
                             ("details", str_exn e)]) 400).

Definition on_Exception (e : exn) : M response :=
  logger_error (LogUnexpected (str_exn e)) ;;;
  ret (with_status (jsonify [("error", "Internal server error");
                             ("details", str_exn e)]) 500).

(** The [try] statement (lines 40-104). *)
Definition download_try (env : environment) (request : Request) : M response :=
  try_except (download_body env request)
    [ (ClsDownloadError, on_DownloadError);
      (ClsException, on_Exception) ].

(** The condition under which line 38 returns (lines 35-37); [API_KEY] is
    the module global, [os.environ.get('API_KEY')]. *)
Definition unauthorized (API_KEY : option string) (request : Request) : bool :=
  match API_KEY with
  | Some api_key =>
      if negb (String.eqb api_key "") then
        let auth_header := headers_get_Authorization request "" in
        negb (startswith auth_header "Bearer ")
        || negb (String.eqb (slice_from 7 auth_header) api_key)
      else false
  | None => false
  end.

(** [download()] *)
Definition download (API_KEY : option string) (env : environment) (request : Request)
  : M response :=
  if unauthorized API_KEY request then
    ret (with_status (jsonify [("error", "Unauthorized")]) 401)
  else
    download_try env request.

(** The two routes registered on [app]. *)
Inductive http_method : Type := GET | POST.

Definition route (API_KEY : option string) (env : environment)
    (method : http_method) (url_path : string) : option (Request -> M response) :=
  match method with
  | GET => if String.eqb url_path "/health" then Some (fun _ => health) else None
  | POST => if String.eqb url_path "/download" then Some (download API_KEY env) else None
  end.

(** A request served end to end: the view runs, then the WSGI layer sends
    what it returned. An exception leaving the view gives no response
    here. *)
Definition serve (view : M response) : world -> option wire_response * world * list event :=
  fun w =>
    match view w with
    | (inl r, w1, t1) => let '(wr, w2, t2) := wsgi_send r w1 in (Some wr, w2, t1 ++ t2)
    | (inr _, w1, t1) => (None, w1, t1)
    end.

(** ** Vocabulary of the properties *)

(** Output discovery (lines 72-80) on the entries the pipeline left:
    [audio.mp3] if there, else the first entry named [audio.*]. *)
Definition discovered (l : listing) : option (string * bytes) :=
  match lookup_entry "audio.mp3" l with
  | Some c => Some ("audio.mp3", c)
  | None => List.find (fun e => fnmatch "audio.*" e.1) l
  end.

Definition audio_response (fd : nat) : response :=
  {| status := 200; mimetype := "audio/mpeg"; attachment := Some "audio.mp3";
     content := BodyFile fd |}.

Definition json_response (code : nat) (obj : list (string * string)) : response :=
  {| status := code; mimetype := "application/json"; attachment := None;
     content := BodyJson obj |}.

Definition error_response (code : nat) (summary details : string) : response :=
  json_response code [("error", summary); ("details", details)].

Definition no_url_response : response :=
  json_response 400 [("error", "No URL provided")].

Definition unauthorized_response : response :=
  json_response 401 [("error", "Unauthorized")].

(** The response the [except] clauses build for an exception. *)
Definition translated (e : exn) : response :=
  match e with
  | DownloadError msg => error_response 400 "Download failed" msg
  | OtherError _ msg => error_response 500 "Internal server error" msg
  end.

Definition logged (e : exn) : event :=
  match e with
  | DownloadError msg => EvLogError (LogDownloadError msg)
  | OtherError _ msg => EvLogError (LogUnexpected msg)
  end.

Definition wire_json (code : nat) (obj : list (string * string)) : wire_response :=
  {| wire_status := code; wire_mimetype := "application/json";
     wire_attachment := None; wire_content := WireJson obj |}.

Definition wire_audio (data : bytes) : wire_response :=
  {| wire_status := 200; wire_mimetype := "audio/mpeg";
     wire_attachment := Some "audio.mp3"; wire_content := WireBytes data |}.

Definition is_log (e : event) : bool :=
  match e with
  | EvLogInfo _ | EvLogError _ => true
  | _ => false
  end.

(** Every read of a file body comes before every removal of a directory. *)
Definition read_before_cleanup (t : list event) : Prop :=
  forall (i j : nat) (d : string) (fd : nat),
    t !! i = Some (EvRmtree d) -> t !! j = Some (EvRead fd) -> j < i.

(** [obj[k]] on the JSON object of a response body. *)
Fixpoint json_field (k : string) (obj : list (string * string)) : option string :=
  match obj with
  | [] => None
  | (k', v) :: rest => if String.eqb k' k then Some v else json_field k rest
  end.



Definition is_extract_info (e : event) : bool :=
  match e with
  | EvExtractInfo _ _ => true
  | _ => false
  end.

(** ** Sample inputs *)

Module Sample.

Definition mp3 : bytes := [x49; x44; x33; x04].
Definition webm : bytes := [x1a; x45; xdf; xa3].

(** An environment whose pipeline always ends the same way. *)
Definition env (out : listing * option exn) : environment :=
  {| gettempdir := "/tmp";
     random_names := ["k3x9ab_1"; "q0w2e4rt"];
     run_pipeline := fun _ _ => out |}.

(** An environment in which [tempfile] finds no usable name. *)
Definition exhausted : environment :=
  {| gettempdir := "/tmp";
     random_names := [];
     run_pipeline := fun _ _ => ([], None) |}.

Definition transcoded : listing * option exn := ([("audio.mp3", mp3)], None).
Definition untranscoded : listing * option exn :=
  ([("cover.jpg", [xff]); ("audio.webm", webm); ("audio.m4a", [x00])], None).
Definition nothing_written : listing * option exn := ([("cover.jpg", [xff])], None).
Definition rejected : listing * option exn :=
  ([], Some (DownloadError "ERROR: Unsupported URL: https://example.invalid/")).
Definition crashed : listing * option exn :=
  ([("audio.webm.part", [x1a])], Some (OtherError "OSError" "[Errno 28] No space left on device")).

Definition empty_world : world := {| fs := ∅; open_files := ∅ |}.

(** A world where the first candidate directory is taken and a
    descriptor is open. *)
Definition busy_world : world :=
  {| fs := {[ "/tmp/tmpk3x9ab_1" := [("audio.mp3", [x00])] ]};
     open_files := {[ 0 := [x01] ]} |}.

Definition url : pyval := PyStr "https://example.invalid/watch?v=1".

Definition post (auth : option string) (body : json_outcome) : Request :=
  {| authorization := auth; json_body := body |}.

Definition good (auth : option string) : Request :=
  post auth (JsonOk (PyDict [("url", url)])).

Definition not_json : json_outcome :=
  JsonRaises "BadRequest"
    "400 Bad Request: The browser (or proxy) sent a request that this server could not understand.".

End Sample.

(** ** Exceptions outside [Exception] *)

(** The same views where the worker can also be made to raise an
    exception that is an instance of [BaseException] only
    ([KeyboardInterrupt], [SystemExit], [GeneratorExit]) while the pipeline
    call blocks. Everything else is the model above, lifted. *)
Module Interrupt.

(** The environment of the model above. *)
Definition base_environment : Type := environment.

(** What a [raise] carries: an instance of [Exception], or one of
    [BaseException] only, of class [cls] with [str(e) = msg]. *)
Inductive raised : Type :=
| Raised (e : exn)
| RaisedBase (cls msg : string).

Definition str_raised (r : raised) : string :=
  match r with
  | Raised e => str_exn e
  | RaisedBase _ msg => msg
  end.

(** No class named in an [except] clause of the application has a
    [BaseException]-only instance. *)
Definition isinstance (r : raised) (c : exn_class) : bool :=
  match r with
  | Raised e => Py.isinstance e c
  | RaisedBase _ _ => false
  end.

(** An operation that raises instances of [Exception] only. *)
Definition lift {A} (m : M A) : world -> (A + raised) * world * list event :=
  fun w =>
    match m w with
    | (inl a, w1, t1) => (inl a, w1, t1)
    | (inr e, w1, t1) => (inr (Raised e), w1, t1)
    end.

Definition M (A : Type) : Type := world -> (A + raised) * world * list event.

Definition ret {A} (a : A) : M A := fun w => (inl a, w, []).

Definition raise {A} (r : raised) : M A := fun w => (inr r, w, []).

Definition bind {A B} (m : M A) (f : A -> M B) : M B :=
  fun w =>
    match m w with
    | (inl a, w1, t1) => let '(r, w2, t2) := f a w1 in (r, w2, t1 ++ t2)
    | (inr e, w1, t1) => (inr e, w1, t1)
    end.

Declare Scope interrupt_scope.
Notation "x <- m ;; k" := (bind m (fun x => k))
  (at level 100, m at next level, right associativity) : interrupt_scope.
Notation "m ;;; k" := (bind m (fun _ => k))
  (at level 100, right associativity) : interrupt_scope.
Local Open Scope interrupt_scope.

Definition with_ {R A} (enter : M R) (exit : R -> M unit) (body : R -> M A) : M A :=
  r <- enter ;;
  fun w =>
    let '(res, w1, t1) := body r w in
    match exit r w1 with
    | (inl _, w2, t2) => (res, w2, t1 ++ t2)
    | (inr e, w2, t2) => (inr e, w2, t1 ++ t2)
    end.

Fixpoint select_clause {A} (r : raised) (clauses : list (exn_class * (raised -> M A)))
  : option (raised -> M A) :=
  match clauses with
  | [] => None
  | (c, h) :: rest => if isinstance r c then Some h else select_clause r rest
  end.

Definition try_except {A} (body : M A) (clauses : list (exn_class * (raised -> M A)))
  : M A :=
  fun w =>
    match body w with
    | (inl a, w1, t1) => (inl a, w1, t1)
    | (inr e, w1, t1) =>
        match select_clause e clauses with
        | Some h => let '(r, w2, t2) := h e w1 in (r, w2, t1 ++ t2)
        | None => (inr e, w1, t1)
        end
    end.

(** The process of the model above, and what interrupts the worker while
    [extract_info] runs on the given arguments, if anything: the class
    and message of the exception raised there. *)
Record environment : Type := Environment {
  process : base_environment;
  interrupted : YoutubeDL_opts -> pyval -> option (string * string)
}.

Definition TemporaryDirectory {A} (env : environment) (body : string -> M A) : M A :=
  with_ (lift (mkdtemp (process env))) (fun d => lift (rmtree d)) body.

Definition YoutubeDL {A} (opts : YoutubeDL_opts) (body : YoutubeDL_opts -> M A) : M A :=
  with_ (ret opts) (fun _ => ret tt) body.

(** [ydl.extract_info(url, download=True)]: as above, unless the worker
    is interrupted during the call; the files written so far stay. *)
Definition extract_info (env : environment) (ydl : YoutubeDL_opts) (url : pyval) : M unit :=
  fun w =>
    let '(files, outcome) := run_pipeline (process env) ydl url in
    let w' := set_fs (insert (outtmpl ydl).1 files) w in
    match interrupted env ydl url with
    | Some (cls, msg) => (inr (RaisedBase cls msg), w', [EvExtractInfo ydl url])
    | None =>
        match outcome with
        | None => (inl tt, w', [EvExtractInfo ydl url])
        | Some e => (inr (Raised e), w', [EvExtractInfo ydl url])
        end
    end.

(** The body of the [try] statement of [download()] (lines 41-90). *)
Definition download_body (env : environment) (request : Request) : M response :=
  data <- lift (get_json request) ;;
  url <- lift (py_get data "url") ;;
  if negb (truthy url) then
    ret (with_status (jsonify [("error", "No URL provided")]) 400)
  else
    lift (logger_info (LogDownloading url)) ;;;
    TemporaryDirectory env (fun temp_dir =>
      let output_template := os_path_join temp_dir "audio.%(ext)s" in
      YoutubeDL (ydl_opts output_template) (fun ydl =>
        extract_info env ydl url ;;;
        let audio_file := os_path_join temp_dir "audio.mp3" in
        found <- lift (os_path_exists audio_file) ;;
        audio_file <-
          (if negb found then
             files <- lift (glob temp_dir "audio.*") ;;
             match files with
             | f :: _ => ret f
             | [] => raise (Raised (OtherError "Exception" "Downloaded file not found"))
             end
           else ret audio_file) ;;
        lift (logger_info (LogComplete audio_file)) ;;;
        lift (send_file audio_file "audio/mpeg" true "audio.mp3"))).

(** The two [except] clauses (lines 92-104). *)
Definition on_DownloadError (e : raised) : M response :=
  lift (logger_error (LogDownloadError (str_raised e))) ;;;
  ret (with_status (jsonify [("error", "Download failed");
                             ("details", str_raised e)]) 400).

Definition on_Exception (e : raised) : M response :=
  lift (logger_error (LogUnexpected (str_raised e))) ;;;
  ret (with_status (jsonify [("error", "Internal server error");
                             ("details", str_raised e)]) 500).

(** The [try] statement (lines 40-104). *)
Definition download_try (env : environment) (request : Request) : M response :=
  try_except (download_body env request)
    [ (ClsDownloadError, on_DownloadError);
      (ClsException, on_Exception) ].

(** [download()] *)
Definition download (API_KEY : option string) (env : environment) (request : Request)
  : M response :=
  if unauthorized API_KEY request then
    ret (with_status (jsonify [("error", "Unauthorized")]) 401)
  else
    download_try env request.

(** A gunicorn worker told to stop while the pipeline runs: its signal
    handler calls [sys.exit(1)]. *)
Definition worker_stopped : environment :=
  {| process := Sample.env Sample.transcoded;
     interrupted := fun _ _ => Some ("SystemExit", "1") |}.

(** A worker that is left alone. *)
Definition undisturbed (p : base_environment) : environment :=
  {| process := p; interrupted := fun _ _ => None |}.

End Interrupt.

(** * Properties *)

(** ** Strings *)

Section strings.

Lemma append_nil (r : string) : "" +:+ r = r.
Proof. reflexivity. Qed.

Lemma append_cons (c : ascii) (p r : string) : String c p +:+ r = String c (p +:+ r).
Proof. reflexivity. Qed.

Lemma startswith_append (p r : string) : startswith (p +:+ r) p = true.
Proof.
  induction p as [|c p IH]; [reflexivity|].
  rewrite append_cons. simpl. rewrite Ascii.eqb_refl. exact IH.
Qed.

Lemma startswith_split (s p : string) :
  startswith s p = true -> s = p +:+ slice_from (String.length p) s.
Proof.
  revert s. induction p as [|c p IH]; intros s H; simpl in *; [reflexivity|].
  destruct s as [|c' s]; [discriminate|].
  apply andb_prop in H as [Hc Hs].
  apply Ascii.eqb_eq in Hc. subst c'. rewrite append_cons. f_equal. apply IH, Hs.
Qed.

Lemma slice_from_append (p r : string) : slice_from (String.length p) (p +:+ r) = r.
Proof.
  induction p as [|c p IH]; [reflexivity|].
  rewrite append_cons. simpl. exact IH.
Qed.

(** The two tests of the Authorization header pass exactly on
    ['Bearer ' + api_key]. *)
Lemma bearer_check (h api_key : string) :
  negb (startswith h "Bearer ") || negb (String.eqb (slice_from 7 h) api_key) = false
  <-> h = "Bearer " +:+ api_key.
Proof.
  split.
  - intros H. apply orb_false_elim in H as [H1 H2].
    apply negb_false_iff in H1, H2.
    apply String.eqb_eq in H2.
    apply startswith_split in H1. simpl String.length in H1.
    rewrite H2 in H1. exact H1.
  - intros ->.
    rewrite (startswith_append "Bearer " api_key).
    change 7 with (String.length "Bearer ").
    rewrite slice_from_append, String.eqb_refl. reflexivity.
Qed.

Lemma fnmatch_star (s : string) : fnmatch "*" s = true.
Proof.
  induction s as [|c s IH]; [reflexivity|].
  change (fnmatch "*" (String c s)) with (false || fnmatch "*" s).
  exact IH.
Qed.

(** ['audio.*'] matches the names that start with ['audio.']. *)
Lemma fnmatch_audio (s : string) : fnmatch "audio.*" s = startswith s "audio.".
Proof.
  do 6 (destruct s as [|? s]; [reflexivity|];
        cbn [fnmatch startswith Ascii.eqb Bool.eqb]; rewrite Ascii.eqb_sym; f_equal).
  apply fnmatch_star.
Qed.

End strings.

(** ** Files and directories *)

Section files.

Lemma find_first_lookup (P : string -> bool) (l : listing) (n : string) (c : bytes) :
  List.find (fun e => P e.1) l = Some (n, c) -> lookup_entry n l = Some c.
Proof.
  induction l as [|[n' c'] l IH]; simpl; [discriminate|].
  destruct (P n') eqn:HP.
  - intros [= -> ->]. rewrite String.eqb_refl. reflexivity.
  - intros H. destruct (String.eqb n' n) eqn:E.
    + apply String.eqb_eq in E. subst n'.
      apply List.find_some in H as [_ H]. simpl in H. congruence.
    + apply IH, H.
Qed.

Lemma filter_head_find {A} (f : A -> bool) (l : list A) :
  List.find f l = match List.filter f l with x :: _ => Some x | [] => None end.
Proof.
  induction l as [|a l IH]; simpl; [reflexivity|].
  destruct (f a); [reflexivity | exact IH].
Qed.

(** A directory created, filled and removed leaves the directory map as
    it was. *)
Lemma created_then_removed (m : gmap string listing) (d : string) (l0 l : listing) :
  m !! d = None -> delete d (<[d:=l]> (<[d:=l0]> m)) = m.
Proof. intros H. rewrite insert_insert_eq. apply delete_insert_id, H. Qed.

Lemma mkdtemp_inv (env : environment) (w w1 : world) (d : string) (t1 : list event) :
  mkdtemp env w = (inl d, w1, t1) ->
  fs w !! d = None /\ w1 = set_fs (insert d []) w /\ t1 = [EvMkdtemp d].
Proof.
  unfold mkdtemp.
  destruct (List.find _ _) as [d'|] eqn:F; [|discriminate].
  intros [= -> <- <-].
  apply List.find_some in F as [_ F].
  apply bool_decide_eq_true in F. auto.
Qed.

Lemma mkdtemp_raises (env : environment) (w w1 : world) (e : exn) (t1 : list event) :
  mkdtemp env w = (inr e, w1, t1) ->
  e = OtherError "FileExistsError" "[Errno 17] No usable temporary directory name found"
  /\ w1 = w /\ t1 = [].
Proof.
  unfold mkdtemp.
  destruct (List.find _ _) as [d'|] eqn:F; [discriminate|].
  intros [= <- <- <-]. auto.
Qed.

End files.

(** ** Tactics *)

(** Evaluate the monadic glue, leaving maps and string tests alone. *)
Ltac run := cbn -[insert delete lookup fresh dom fnmatch startswith].

Ltac restore_fs H :=
  unfold set_fs, set_open_files; cbn [fs open_files];
  rewrite ?created_then_removed by exact H;
  try reflexivity.

(** ** The paths through [download_body] *)

Section paths.

Variable env : environment.
Variable request : Request.
Variable w : world.

Lemma download_body_json_raises (cls msg : string) :
  json_body request = JsonRaises cls msg ->
  download_body env request w = (inr (OtherError cls msg), w, []).
Proof. intros H. unfold download_body, get_json, bind, raise. rewrite H. reflexivity. Qed.

Lemma download_body_not_dict (data : pyval) :
  json_body request = JsonOk data ->
  (forall d, data <> PyDict d) ->
  download_body env request w =
    (inr (OtherError "AttributeError"
            ("'" +:+ type_name data +:+ "' object has no attribute 'get'")), w, []).
Proof.
  intros H N. unfold download_body, get_json, bind, ret. rewrite H.
  destruct data; try reflexivity. destruct (N d eq_refl).
Qed.

Lemma download_body_no_url (d : list (string * pyval)) :
  json_body request = JsonOk (PyDict d) ->
  truthy (dict_get d "url") = false ->
  download_body env request w = (inl no_url_response, w, []).
Proof.
  intros H U. unfold download_body, get_json, bind, ret, py_get. rewrite H.
  run. rewrite U. reflexivity.
Qed.

Lemma download_body_no_tempdir (d : list (string * pyval)) (e : exn) (w1 : world)
    (t1 : list event) :
  json_body request = JsonOk (PyDict d) ->
  truthy (dict_get d "url") = true ->
  mkdtemp env w = (inr e, w1, t1) ->
  download_body env request w =
    (inr (OtherError "FileExistsError"
            "[Errno 17] No usable temporary directory name found"),
     w, [EvLogInfo (LogDownloading (dict_get d "url"))]).
Proof.
  intros H U Hm. destruct (mkdtemp_raises _ _ _ _ _ Hm) as (-> & -> & ->).
  unfold download_body, get_json, bind, ret, py_get. rewrite H.
  run. rewrite U. run.
  unfold TemporaryDirectory, with_, bind. rewrite Hm. reflexivity.
Qed.

Lemma download_body_extraction (d : list (string * pyval)) (temp_dir : string)
    (w1 : world) (t1 : list event) :
  json_body request = JsonOk (PyDict d) ->
  truthy (dict_get d "url") = true ->
  mkdtemp env w = (inl temp_dir, w1, t1) ->
  let url := dict_get d "url" in
  let opts := ydl_opts (os_path_join temp_dir "audio.%(ext)s") in
  let fd := fresh (dom (open_files w)) in
  download_body env request w =
    match run_pipeline env opts url with
    | (l, Some e) =>
        (inr e, w,
         [EvLogInfo (LogDownloading url); EvMkdtemp temp_dir; EvExtractInfo opts url;
          EvRmtree temp_dir])
    | (l, None) =>
        match discovered l with
        | Some (n, c) =>
            (inl (audio_response fd), set_open_files (insert fd c) w,
             [EvLogInfo (LogDownloading url); EvMkdtemp temp_dir;
              EvExtractInfo opts url;
              EvLogInfo (LogComplete (temp_dir, n)); EvOpen (temp_dir, n) fd;
              EvRmtree temp_dir])
        | None =>
            (inr (OtherError "Exception" "Downloaded file not found"), w,
             [EvLogInfo (LogDownloading url); EvMkdtemp temp_dir;
              EvExtractInfo opts url; EvRmtree temp_dir])
        end
    end.
Proof.
  intros H U Hm url opts fd.
  destruct (mkdtemp_inv _ _ _ _ _ Hm) as (Hfresh & -> & ->).
  unfold download_body, get_json, bind, ret, py_get. rewrite H.
  run. rewrite U. run.
  unfold TemporaryDirectory, with_, bind. rewrite Hm.
  unfold YoutubeDL, with_, bind, ret, extract_info.
  fold opts url.
  destruct (run_pipeline env opts url) as [l [e|]].
  - run. destruct w; restore_fs Hfresh.
  - run. rewrite !lookup_insert_eq. run.
    unfold discovered.
    destruct (lookup_entry "audio.mp3" l) as [c|] eqn:E; run.
    + unfold send_file. run. rewrite lookup_insert_eq. run. rewrite E. run.
      restore_fs Hfresh.
    + rewrite lookup_insert_eq. run.
      rewrite (filter_head_find (fun e : string * bytes => fnmatch "audio.*" e.1)).
      destruct (List.filter _ l) as [|[n c] rest] eqn:F; run.
      * destruct w; restore_fs Hfresh.
      * unfold send_file. run. rewrite lookup_insert_eq. run.
        assert (L : lookup_entry n l = Some c).
        { apply (find_first_lookup (fnmatch "audio.*")).
          rewrite filter_head_find, F. reflexivity. }
        rewrite L. run.
        restore_fs Hfresh.
Qed.

End paths.

(** ** The [try] statement and the view *)

Section view.

Variable env : environment.
Variable request : Request.
Variable w : world.

(** What the [except] clauses make of the outcome of the body. *)
Lemma download_try_run :
  download_try env request w =
    match download_body env request w with
    | (inl r, w1, t1) => (inl r, w1, t1)
    | (inr e, w1, t1) => (inl (translated e), w1, t1 ++ [logged e])
    end.
Proof.
  unfold download_try, try_except.
  destruct (download_body env request w) as [[[r|e] w1] t1]; [reflexivity|].
  destruct e as [msg|cls msg]; reflexivity.
Qed.

Lemma download_authorized (API_KEY : option string) :
  unauthorized API_KEY request = false ->
  download API_KEY env request = download_try env request.
Proof. intros H. unfold download. rewrite H. reflexivity. Qed.

Lemma download_unauthorized (API_KEY : option string) :
  unauthorized API_KEY request = true ->
  download API_KEY env request w = (inl unauthorized_response, w, []).
Proof. intros H. unfold download. rewrite H. reflexivity. Qed.

(** The ways out of the body: the 400 for a missing URL, the file
    response, or an exception; the directory map is as before in each. *)
Lemma download_body_cases :
  (download_body env request w = (inl no_url_response, w, []))
  \/ (exists c t, download_body env request w =
        (inl (audio_response (fresh (dom (open_files w)))),
         set_open_files (insert (fresh (dom (open_files w))) c) w, t))
  \/ (exists e t, download_body env request w = (inr e, w, t)).
Proof.
  destruct (json_body request) as [data|cls msg] eqn:J.
  2:{ right; right. eauto using download_body_json_raises. }
  destruct data as [ | | | | | |d].
  1-6: right; right; do 2 eexists;
       apply (download_body_not_dict _ _ _ _ J); intros d; discriminate.
  destruct (truthy (dict_get d "url")) eqn:U.
  2:{ left. eauto using download_body_no_url. }
  destruct (mkdtemp env w) as [[[temp_dir|e] w1] t1] eqn:Hm.
  2:{ right; right. eauto using download_body_no_tempdir. }
  rewrite (download_body_extraction _ _ _ d temp_dir w1 t1 J U Hm).
  destruct (run_pipeline env _ _) as [l [e|]]; [right; right; eauto|].
  destruct (discovered l) as [[n c]|]; [right; left; eauto | right; right; eauto].
Qed.

(** No exception leaves the view, and the status is one of four. *)
Lemma download_returns (API_KEY : option string) :
  exists r w1 t, download API_KEY env request w = (inl r, w1, t)
    /\ fs w1 = fs w
    /\ (status r = 200 \/ status r = 400 \/ status r = 401 \/ status r = 500).
Proof.
  destruct (unauthorized API_KEY request) eqn:A.
  - rewrite (download_unauthorized _ A). do 3 eexists. split; [reflexivity|].
    cbn. auto.
  - rewrite (download_authorized _ A), download_try_run.
    destruct download_body_cases as [E|[(c & t & E)|(e & t & E)]]; rewrite E.
    + do 3 eexists. split; [reflexivity|]. cbn. auto.
    + do 3 eexists. split; [reflexivity|]. cbn. auto.
    + do 3 eexists. split; [reflexivity|]. split; [reflexivity|].
      destruct e; cbn; auto.
Qed.

End view.

(** ** A request served end to end *)

Section served.

Variable env : environment.
Variable request : Request.
Variable w : world.

Lemma fresh_not_open : open_files w !! fresh (dom (open_files w)) = None.
Proof. apply not_elem_of_dom, is_fresh. Qed.

Lemma wsgi_send_json (code : nat) (obj : list (string * string)) :
  wsgi_send (json_response code obj) w = (wire_json code obj, w, [EvStartResponse code]).
Proof. reflexivity. Qed.

(** The file body is read from the descriptor [send_file] opened. *)
Lemma wsgi_send_audio (c : bytes) :
  let fd := fresh (dom (open_files w)) in
  wsgi_send (audio_response fd) (set_open_files (insert fd c) w) =
    (wire_audio c, w, [EvStartResponse 200; EvRead fd; EvClose fd]).
Proof.
  intros fd. unfold wsgi_send, set_open_files. cbn [content audio_response open_files fs].
  rewrite lookup_insert_eq, delete_insert_id by exact fresh_not_open.
  destruct w; reflexivity.
Qed.

Lemma wsgi_send_translated (e : exn) :
  wsgi_send (translated e) w =
    (wire_json (status (translated e))
       [("error", match e with DownloadError _ => "Download failed"
                             | OtherError _ _ => "Internal server error" end);
        ("details", str_exn e)],
     w, [EvStartResponse (status (translated e))]).
Proof. destruct e; reflexivity. Qed.

Variable API_KEY : option string.
Variable d : list (string * pyval).
Variable temp_dir : string.

Hypothesis authorized : unauthorized API_KEY request = false.
Hypothesis has_dict : json_body request = JsonOk (PyDict d).
Hypothesis has_url : truthy (dict_get d "url") = true.
Hypothesis has_tempdir : (mkdtemp env w).1.1 = inl temp_dir.

Let url := dict_get d "url".
Let opts := ydl_opts (os_path_join temp_dir "audio.%(ext)s").
Let fd := fresh (dom (open_files w)).

Lemma tempdir_is_new : fs w !! temp_dir = None.
Proof.
  destruct (mkdtemp env w) as [[r w1] t1] eqn:Hm. cbn in has_tempdir. subst r.
  apply (mkdtemp_inv _ _ _ _ _ Hm).
Qed.

(** The view on a request that reaches the extraction step. *)
Lemma download_extraction :
  download API_KEY env request w =
    match run_pipeline env opts url with
    | (l, Some e) =>
        (inl (translated e), w,
         [EvLogInfo (LogDownloading url); EvMkdtemp temp_dir; EvExtractInfo opts url;
          EvRmtree temp_dir; logged e])
    | (l, None) =>
        match discovered l with
        | Some (n, c) =>
            (inl (audio_response fd), set_open_files (insert fd c) w,
             [EvLogInfo (LogDownloading url); EvMkdtemp temp_dir;
              EvExtractInfo opts url;
              EvLogInfo (LogComplete (temp_dir, n)); EvOpen (temp_dir, n) fd;
              EvRmtree temp_dir])
        | None =>
            (inl (error_response 500 "Internal server error" "Downloaded file not found"),
             w,
             [EvLogInfo (LogDownloading url); EvMkdtemp temp_dir;
              EvExtractInfo opts url; EvRmtree temp_dir;
              EvLogError (LogUnexpected "Downloaded file not found")])
        end
    end.
Proof.
  rewrite (download_authorized _ _ _ authorized), download_try_run.
  destruct (mkdtemp env w) as [[r w1] t1] eqn:Hm. cbn in has_tempdir. subst r.
  rewrite (download_body_extraction _ _ _ d temp_dir w1 t1 has_dict has_url Hm).
  fold url opts fd.
  destruct (run_pipeline env opts url) as [l [e|]]; [reflexivity|].
  destruct (discovered l) as [[n c]|]; reflexivity.
Qed.

(** The same request, served. *)
Lemma serve_extraction :
  serve (download API_KEY env request) w =
    match run_pipeline env opts url with
    | (l, Some e) =>
        (Some (wire_json (status (translated e))
                 [("error", match e with DownloadError _ => "Download failed"
                                       | OtherError _ _ => "Internal server error" end);
                  ("details", str_exn e)]),
         w,
         [EvLogInfo (LogDownloading url); EvMkdtemp temp_dir; EvExtractInfo opts url;
          EvRmtree temp_dir; logged e; EvStartResponse (status (translated e))])
    | (l, None) =>
        match discovered l with
        | Some (n, c) =>
            (Some (wire_audio c), w,
             [EvLogInfo (LogDownloading url); EvMkdtemp temp_dir;
              EvExtractInfo opts url;
              EvLogInfo (LogComplete (temp_dir, n)); EvOpen (temp_dir, n) fd;
              EvRmtree temp_dir;
              EvStartResponse 200; EvRead fd; EvClose fd])
        | None =>
            (Some (wire_json 500 [("error", "Internal server error");
                                  ("details", "Downloaded file not found")]),
             w,
             [EvLogInfo (LogDownloading url); EvMkdtemp temp_dir;
              EvExtractInfo opts url; EvRmtree temp_dir;
              EvLogError (LogUnexpected "Downloaded file not found");
              EvStartResponse 500])
        end
    end.
Proof.
  unfold serve. rewrite download_extraction.
  destruct (run_pipeline env opts url) as [l [e|]].
  - rewrite wsgi_send_translated. reflexivity.
  - destruct (discovered l) as [[n c]|].
    + fold fd. unfold fd. rewrite wsgi_send_audio. reflexivity.
    + reflexivity.
Qed.

End served.

(** ** The views when the worker can be interrupted *)

Section interrupted.

Variable env : Interrupt.environment.
Variable request : Request.
Variable w : world.

(** What the [except] clauses make of the outcome of the body: an
    instance of [Exception] is answered, anything else goes on. *)
Lemma interrupt_download_try_run :
  Interrupt.download_try env request w =
    match Interrupt.download_body env request w with
    | (inl r, w1, t1) => (inl r, w1, t1)
    | (inr (Interrupt.Raised e), w1, t1) => (inl (translated e), w1, t1 ++ [logged e])
    | (inr (Interrupt.RaisedBase cls msg), w1, t1) =>
        (inr (Interrupt.RaisedBase cls msg), w1, t1)
    end.
Proof.
  unfold Interrupt.download_try, Interrupt.try_except.
  destruct (Interrupt.download_body env request w) as [[[r|[e|cls msg]] w1] t1];
    [reflexivity| |reflexivity].
  destruct e as [msg|cls msg]; reflexivity.
Qed.

Lemma interrupt_download_body_json_raises (cls msg : string) :
  json_body request = JsonRaises cls msg ->
  Interrupt.download_body env request w =
    (inr (Interrupt.Raised (OtherError cls msg)), w, []).
Proof.
  intros H.
  unfold Interrupt.download_body, Interrupt.bind, Interrupt.lift, get_json, raise.
  rewrite H. reflexivity.
Qed.

Lemma interrupt_download_body_not_dict (data : pyval) :
  json_body request = JsonOk data ->
  (forall d, data <> PyDict d) ->
  Interrupt.download_body env request w =
    (inr (Interrupt.Raised
            (OtherError "AttributeError"
               ("'" +:+ type_name data +:+ "' object has no attribute 'get'"))), w, []).
Proof.
  intros H N.
  unfold Interrupt.download_body, Interrupt.bind, Interrupt.lift, get_json, ret.
  rewrite H.
  destruct data; try reflexivity. destruct (N d eq_refl).
Qed.

Lemma interrupt_download_body_no_url (d : list (string * pyval)) :
  json_body request = JsonOk (PyDict d) ->
  truthy (dict_get d "url") = false ->
  Interrupt.download_body env request w = (inl no_url_response, w, []).
Proof.
  intros H U.
  unfold Interrupt.download_body, Interrupt.bind, Interrupt.lift, get_json, py_get, ret.
  rewrite H. run. rewrite U. reflexivity.
Qed.

Lemma interrupt_download_body_no_tempdir (d : list (string * pyval)) (e : exn)
    (w1 : world) (t1 : list event) :
  json_body request = JsonOk (PyDict d) ->
  truthy (dict_get d "url") = true ->
  mkdtemp (Interrupt.process env) w = (inr e, w1, t1) ->
  Interrupt.download_body env request w =
    (inr (Interrupt.Raised
            (OtherError "FileExistsError"
               "[Errno 17] No usable temporary directory name found")),
     w, [EvLogInfo (LogDownloading (dict_get d "url"))]).
Proof.
  intros H U Hm. destruct (mkdtemp_raises _ _ _ _ _ Hm) as (-> & -> & ->).
  unfold Interrupt.download_body, Interrupt.bind, Interrupt.lift, get_json, py_get, ret.
  rewrite H. run. rewrite U. run.
  unfold Interrupt.TemporaryDirectory, Interrupt.with_, Interrupt.bind, Interrupt.lift.
  rewrite Hm. reflexivity.
Qed.

Lemma interrupt_download_body_extraction (d : list (string * pyval)) (temp_dir : string)
    (w1 : world) (t1 : list event) :
  json_body request = JsonOk (PyDict d) ->
  truthy (dict_get d "url") = true ->
  mkdtemp (Interrupt.process env) w = (inl temp_dir, w1, t1) ->
  let url := dict_get d "url" in
  let opts := ydl_opts (os_path_join temp_dir "audio.%(ext)s") in
  let fd := fresh (dom (open_files w)) in
  Interrupt.download_body env request w =
    match Interrupt.interrupted env opts url with
    | Some (cls, msg) =>
        (inr (Interrupt.RaisedBase cls msg), w,
         [EvLogInfo (LogDownloading url); EvMkdtemp temp_dir; EvExtractInfo opts url;
          EvRmtree temp_dir])
    | None =>
        match run_pipeline (Interrupt.process env) opts url with
        | (l, Some e) =>
            (inr (Interrupt.Raised e), w,
             [EvLogInfo (LogDownloading url); EvMkdtemp temp_dir; EvExtractInfo opts url;
              EvRmtree temp_dir])
        | (l, None) =>
            match discovered l with
            | Some (n, c) =>
                (inl (audio_response fd), set_open_files (insert fd c) w,
                 [EvLogInfo (LogDownloading url); EvMkdtemp temp_dir;
                  EvExtractInfo opts url;
                  EvLogInfo (LogComplete (temp_dir, n)); EvOpen (temp_dir, n) fd;
                  EvRmtree temp_dir])
            | None =>
                (inr (Interrupt.Raised
                        (OtherError "Exception" "Downloaded file not found")), w,
                 [EvLogInfo (LogDownloading url); EvMkdtemp temp_dir;
                  EvExtractInfo opts url; EvRmtree temp_dir])
            end
        end
    end.
Proof.
  intros H U Hm url opts fd.
  destruct (mkdtemp_inv _ _ _ _ _ Hm) as (Hfresh & -> & ->).
  unfold Interrupt.download_body, Interrupt.bind, Interrupt.lift, get_json, py_get, ret.
  rewrite H. run. rewrite U. run.
  unfold Interrupt.TemporaryDirectory, Interrupt.with_, Interrupt.bind, Interrupt.lift.
  rewrite Hm.
  unfold Interrupt.YoutubeDL, Interrupt.with_, Interrupt.bind, Interrupt.ret,
    Interrupt.extract_info.
  fold opts url.
  destruct (run_pipeline (Interrupt.process env) opts url) as [l out].
  destruct (Interrupt.interrupted env opts url) as [[cls msg]|].
  { run. destruct w; restore_fs Hfresh. }
  destruct out as [e|].
  - run. destruct w; restore_fs Hfresh.
  - run. rewrite !lookup_insert_eq. run.
    unfold discovered.
    destruct (lookup_entry "audio.mp3" l) as [c|] eqn:E; run.
    + unfold send_file. run. rewrite lookup_insert_eq. run. rewrite E. run.
      restore_fs Hfresh.
    + rewrite lookup_insert_eq. run.
      rewrite (filter_head_find (fun e : string * bytes => fnmatch "audio.*" e.1)).
      destruct (List.filter _ l) as [|[n c] rest] eqn:F; run.
      * destruct w; restore_fs Hfresh.
      * unfold send_file. run. rewrite lookup_insert_eq. run.
        assert (L : lookup_entry n l = Some c).
        { apply (find_first_lookup (fnmatch "audio.*")).
          rewrite filter_head_find, F. reflexivity. }
        rewrite L. run.
        restore_fs Hfresh.
Qed.

Lemma interrupt_download_authorized (API_KEY : option string) :
  unauthorized API_KEY request = false ->
  Interrupt.download API_KEY env request = Interrupt.download_try env request.
Proof. intros H. unfold Interrupt.download. rewrite H. reflexivity. Qed.

End interrupted.

(** Left alone, the worker behaves as in the model without interrupts. *)
Lemma interrupt_undisturbed (API_KEY : option string) (p : environment)
    (request : Request) (w : world) :
  Interrupt.download API_KEY (Interrupt.undisturbed p) request w
  = Interrupt.lift (download API_KEY p request) w.
Proof.
  unfold Interrupt.lift.
  destruct (unauthorized API_KEY request) eqn:A.
  { rewrite (download_unauthorized _ _ _ _ A).
    unfold Interrupt.download. rewrite A. reflexivity. }
  rewrite (interrupt_download_authorized _ _ _ A), interrupt_download_try_run.
  rewrite (download_authorized _ _ _ A), download_try_run.
  destruct (json_body request) as [data|cls msg] eqn:J.
  2:{ rewrite (interrupt_download_body_json_raises _ _ _ _ _ J).
      rewrite (download_body_json_raises _ _ _ _ _ J). reflexivity. }
  destruct data as [ | | | | | |d];
    try (rewrite (interrupt_download_body_not_dict _ _ _ _ J ltac:(discriminate));
         rewrite (download_body_not_dict _ _ _ _ J ltac:(discriminate)); reflexivity).
  destruct (truthy (dict_get d "url")) eqn:U.
  2:{ rewrite (interrupt_download_body_no_url _ _ _ _ J U).
      rewrite (download_body_no_url _ _ _ _ J U). reflexivity. }
  destruct (mkdtemp p w) as [[[temp_dir|e] w1] t1] eqn:Hm.
  - rewrite (interrupt_download_body_extraction (Interrupt.undisturbed p) _ _ d
               temp_dir w1 t1 J U Hm).
    rewrite (download_body_extraction _ _ _ d temp_dir w1 t1 J U Hm).
    cbn [Interrupt.interrupted Interrupt.process Interrupt.undisturbed].
    destruct (run_pipeline p _ _) as [l [e|]]; [reflexivity|].
    destruct (discovered l) as [[n c]|]; reflexivity.
  - rewrite (interrupt_download_body_no_tempdir (Interrupt.undisturbed p) _ _ d e
               w1 t1 J U Hm).
    rewrite (download_body_no_tempdir _ _ _ d e w1 t1 J U Hm). reflexivity.
Qed.

(** * The claims *)

(** C1. With a non-empty [API_KEY] configured, [download] answers 401
    [{"error": "Unauthorized"}] unless the Authorization header is exactly
    ['Bearer ' + API_KEY]; with exactly that header the check passes: the
    view is the [try] statement that validates the body, and its answer is
    not a 401. *)
Theorem download_auth_enforced (env : environment) (request : Request) (w : world)
    (api_key : string) :
  api_key <> "" ->
  (authorization request = Some ("Bearer " +:+ api_key) ->
     download (Some api_key) env request w = download_try env request w
     /\ exists r w1 t,
          download (Some api_key) env request w = (inl r, w1, t) /\ status r <> 401)
  /\ (authorization request <> Some ("Bearer " +:+ api_key) ->
     download (Some api_key) env request w = (inl unauthorized_response, w, [])).
Proof.
  intros Hkey.
  assert (K : negb (String.eqb api_key "") = true).
  { apply negb_true_iff, String.eqb_neq, Hkey. }
  split.
  - intros Hauth.
    assert (A : unauthorized (Some api_key) request = false).
    { unfold unauthorized, headers_get_Authorization. rewrite K, Hauth.
      apply bearer_check. reflexivity. }
    rewrite (download_authorized _ _ _ A). split; [reflexivity|].
    rewrite download_try_run.
    destruct (download_body_cases env request w) as [E|[(c & t & E)|(e & t & E)]];
      rewrite E; do 3 eexists; (split; [reflexivity|]);
      try destruct e; cbn; discriminate.
  - intros Hauth. apply download_unauthorized.
    unfold unauthorized, headers_get_Authorization. rewrite K.
    destruct (negb _ || negb _) eqn:B; [reflexivity|].
    apply bearer_check in B.
    destruct (authorization request) as [h|]; [congruence|].
    destruct api_key; discriminate.
Qed.

Lemma download_auth_enforced_witness :
  "s3cret" <> ""
  /\ download (Some "s3cret") (Sample.env Sample.rejected)
       (Sample.good (Some "Bearer s3cret")) Sample.empty_world
     = download_try (Sample.env Sample.rejected)
         (Sample.good (Some "Bearer s3cret")) Sample.empty_world
  /\ download (Some "s3cret") (Sample.env Sample.rejected)
       (Sample.good (Some "bearer s3cret")) Sample.empty_world
     = (inl unauthorized_response, Sample.empty_world, [])
  /\ download (Some "s3cret") (Sample.env Sample.rejected)
       (Sample.good None) Sample.empty_world
     = (inl unauthorized_response, Sample.empty_world, []).
Proof.
  split; [discriminate|].
  split; [|split].
  - apply (proj1 (download_auth_enforced (Sample.env Sample.rejected)
                    (Sample.good (Some "Bearer s3cret")) Sample.empty_world "s3cret"
                    ltac:(discriminate))).
    reflexivity.
  - apply (proj2 (download_auth_enforced (Sample.env Sample.rejected)
                    (Sample.good (Some "bearer s3cret")) Sample.empty_world "s3cret"
                    ltac:(discriminate))).
    discriminate.
  - apply (proj2 (download_auth_enforced (Sample.env Sample.rejected)
                    (Sample.good None) Sample.empty_world "s3cret"
                    ltac:(discriminate))).
    discriminate.
Defined.

(** C10. An [API_KEY] set to the empty string disables the check exactly
    as an unset one does: [download] is the same view, the request is never
    unauthorized, and the answer is never a 401. *)
Theorem empty_key_disables_auth (env : environment) (request : Request) (w : world) :
  download (Some "") env request w = download None env request w
  /\ unauthorized (Some "") request = false
  /\ exists r w1 t, download (Some "") env request w = (inl r, w1, t) /\ status r <> 401.
Proof.
  split; [reflexivity|]. split; [reflexivity|].
  change (download (Some "") env request w) with (download_try env request w).
  rewrite download_try_run.
  destruct (download_body_cases env request w) as [E|[(c & t & E)|(e & t & E)]];
    rewrite E; do 3 eexists; (split; [reflexivity|]);
    try destruct e; cbn; discriminate.
Qed.

(** C7. With [API_KEY] unset, two requests that differ only in their
    Authorization header get the same answer from [download], with the same
    effects, and the same response on the wire. *)
Theorem auth_header_ignored_without_key (env : environment) (request : Request)
    (a a' : option string) (w : world) :
  download None env (with_authorization a request) w
  = download None env (with_authorization a' request) w
  /\ serve (download None env (with_authorization a request)) w
     = serve (download None env (with_authorization a' request)) w.
Proof.
  assert (E : download None env (with_authorization a request) w
              = download None env (with_authorization a' request) w) by reflexivity.
  split; [exact E|]. unfold serve. rewrite E. reflexivity.
Qed.

(** C9. GET /health is routed to [health], whatever [API_KEY] is and
    whatever the state of the world: the answer is 200 with the three fixed
    fields, the world is unchanged and nothing is done on the way. *)
Theorem health_fixed (API_KEY : option string) (env : environment) (request : Request)
    (w : world) :
  exists view,
    route API_KEY env GET "/health" = Some view
    /\ view request w =
         (inl (json_response 200 [("status", "healthy");
                                  ("service", "yt-dlp-audio-service");
                                  ("version", "1.0")]), w, [])
    /\ serve (view request) w =
         (Some (wire_json 200 [("status", "healthy");
                               ("service", "yt-dlp-audio-service");
                               ("version", "1.0")]), w, [EvStartResponse 200]).
Proof. eexists. split; [reflexivity|]. split; reflexivity. Qed.

(** C6. A request that is not turned away by the auth check and whose
    body is [{}] or [{"url": ""}] gets exactly 400
    [{"error": "No URL provided"}], and nothing else happens. *)
Theorem missing_url_rejected (API_KEY : option string) (env : environment)
    (request : Request) (w : world) :
  unauthorized API_KEY request = false ->
  json_body request = JsonOk (PyDict [])
  \/ json_body request = JsonOk (PyDict [("url", PyStr "")]) ->
  download API_KEY env request w = (inl no_url_response, w, [])
  /\ serve (download API_KEY env request) w =
       (Some (wire_json 400 [("error", "No URL provided")]), w, [EvStartResponse 400]).
Proof.
  intros A B.
  assert (E : download API_KEY env request w = (inl no_url_response, w, [])).
  { rewrite (download_authorized _ _ _ A), download_try_run.
    destruct B as [B|B];
      rewrite (download_body_no_url _ _ _ _ B eq_refl); reflexivity. }
  split; [exact E|]. unfold serve. rewrite E. reflexivity.
Qed.

Lemma missing_url_rejected_witness :
  (unauthorized (Some "s3cret") (Sample.post (Some "Bearer s3cret") (JsonOk (PyDict [])))
   = false
   /\ serve (download (Some "s3cret") (Sample.env Sample.transcoded)
               (Sample.post (Some "Bearer s3cret") (JsonOk (PyDict []))))
        Sample.busy_world
      = (Some (wire_json 400 [("error", "No URL provided")]), Sample.busy_world,
         [EvStartResponse 400]))
  /\ (unauthorized None (Sample.post None (JsonOk (PyDict [("url", PyStr "")]))) = false
      /\ serve (download None (Sample.env Sample.transcoded)
                  (Sample.post None (JsonOk (PyDict [("url", PyStr "")]))))
           Sample.busy_world
         = (Some (wire_json 400 [("error", "No URL provided")]), Sample.busy_world,
            [EvStartResponse 400])).
Proof.
  split; (split; [reflexivity|]).
  - apply (missing_url_rejected (Some "s3cret") (Sample.env Sample.transcoded)
             (Sample.post (Some "Bearer s3cret") (JsonOk (PyDict []))) Sample.busy_world
             eq_refl (or_introl eq_refl)).
  - apply (missing_url_rejected None (Sample.env Sample.transcoded)
             (Sample.post None (JsonOk (PyDict [("url", PyStr "")]))) Sample.busy_world
             eq_refl (or_intror eq_refl)).
Defined.

(** C2, as stated, fails: a body that is not JSON makes [get_json] raise,
    the generic [except] clause answers, and the response is a 500, not the
    400 [{"error": "No URL provided"}]. *)
Lemma unparsable_body_is_500 :
  unauthorized None (Sample.post None Sample.not_json) = false
  /\ (download None (Sample.env Sample.transcoded) (Sample.post None Sample.not_json)
        Sample.empty_world).1.1
     = inl (error_response 500 "Internal server error"
              "400 Bad Request: The browser (or proxy) sent a request that this server could not understand.")
  /\ (download None (Sample.env Sample.transcoded) (Sample.post None Sample.not_json)
        Sample.empty_world).1.1
     <> inl no_url_response.
Proof. split; [reflexivity|]. split; [reflexivity|]. discriminate. Qed.

(** C2, amended. For a request the auth check lets through: if the body
    parses to a JSON object whose [url] is missing or falsy, the answer is
    400 [{"error": "No URL provided"}]; if [get_json] raises because the
    body is not JSON, or the parsed value is not an object (so that
    [data.get] raises AttributeError), the generic clause answers 500
    "Internal server error" with the exception's message as details. *)
Theorem validation_outcomes (API_KEY : option string) (env : environment)
    (request : Request) (w : world) :
  unauthorized API_KEY request = false ->
  (forall d, json_body request = JsonOk (PyDict d) ->
             truthy (dict_get d "url") = false ->
             download API_KEY env request w = (inl no_url_response, w, []))
  /\ (forall cls msg, json_body request = JsonRaises cls msg ->
        download API_KEY env request w =
          (inl (error_response 500 "Internal server error" msg), w,
           [EvLogError (LogUnexpected msg)]))
  /\ (forall data, json_body request = JsonOk data ->
        (forall d, data <> PyDict d) ->
        download API_KEY env request w =
          (inl (error_response 500 "Internal server error"
                  ("'" +:+ type_name data +:+ "' object has no attribute 'get'")), w,
           [EvLogError
              (LogUnexpected ("'" +:+ type_name data +:+ "' object has no attribute 'get'"))])).
Proof.
  intros A. rewrite (download_authorized _ _ _ A), download_try_run.
  split; [|split].
  - intros d J U. rewrite (download_body_no_url _ _ _ _ J U). reflexivity.
  - intros cls msg J. rewrite (download_body_json_raises _ _ _ _ _ J). reflexivity.
  - intros data J N. rewrite (download_body_not_dict _ _ _ _ J N). reflexivity.
Qed.

Lemma validation_outcomes_witness :
  (unauthorized None (Sample.post None (JsonOk (PyDict [("url", PyInt 0)]))) = false
   /\ download None (Sample.env Sample.transcoded)
        (Sample.post None (JsonOk (PyDict [("url", PyInt 0)]))) Sample.busy_world
      = (inl no_url_response, Sample.busy_world, []))
  /\ (unauthorized None (Sample.post None Sample.not_json) = false
      /\ (download None (Sample.env Sample.transcoded) (Sample.post None Sample.not_json)
            Sample.busy_world).1.1
         = inl (error_response 500 "Internal server error"
                  "400 Bad Request: The browser (or proxy) sent a request that this server could not understand."))
  /\ (unauthorized None (Sample.post None (JsonOk PyNone)) = false
      /\ (download None (Sample.env Sample.transcoded) (Sample.post None (JsonOk PyNone))
            Sample.busy_world).1.1
         = inl (error_response 500 "Internal server error"
                  "'NoneType' object has no attribute 'get'")).
Proof.
  split; [|split]; (split; [reflexivity|]).
  - apply (proj1 (validation_outcomes None (Sample.env Sample.transcoded)
                    (Sample.post None (JsonOk (PyDict [("url", PyInt 0)])))
                    Sample.busy_world eq_refl) [("url", PyInt 0)] eq_refl eq_refl).
  - rewrite (proj1 (proj2 (validation_outcomes None (Sample.env Sample.transcoded)
                             (Sample.post None Sample.not_json)
                             Sample.busy_world eq_refl)) _ _ eq_refl).
    reflexivity.
  - rewrite (proj2 (proj2 (validation_outcomes None (Sample.env Sample.transcoded)
                             (Sample.post None (JsonOk PyNone))
                             Sample.busy_world eq_refl)) PyNone eq_refl
               ltac:(discriminate)).
    reflexivity.
Defined.

(** C3, as stated, fails: an exception that is not an instance of
    [Exception], here the [SystemExit] of a worker told to stop while the
    pipeline runs, is caught by neither [except] clause and leaves
    [download]. *)
Lemma base_exception_leaves_handler :
  unauthorized None (Sample.good None) = false
  /\ json_body (Sample.good None) = JsonOk (PyDict [("url", Sample.url)])
  /\ truthy (dict_get [("url", Sample.url)] "url") = true
  /\ (Interrupt.download None Interrupt.worker_stopped (Sample.good None)
        Sample.empty_world).1.1
     = inr (Interrupt.RaisedBase "SystemExit" "1")
  /\ ~ exists r,
         (Interrupt.download None Interrupt.worker_stopped (Sample.good None)
            Sample.empty_world).1.1 = inl r.
Proof.
  assert (E : (Interrupt.download None Interrupt.worker_stopped (Sample.good None)
                 Sample.empty_world).1.1
              = inr (Interrupt.RaisedBase "SystemExit" "1"))
    by (vm_compute; reflexivity).
  split; [reflexivity|]. split; [reflexivity|]. split; [reflexivity|].
  split; [exact E|].
  intros (r & R). rewrite E in R. discriminate R.
Qed.

(** C3, amended. For a request with a valid URL that the auth check lets
    through: whatever instance of [Exception] the body of the [try] raises
    is answered, 400 "Download failed" when it is a DownloadError and 500
    "Internal server error" otherwise, with the exception's message as
    details; in particular a DownloadError and any other [Exception] of the
    pipeline, a missing output file, and a failure to create the temporary
    directory are answered so. The only exceptions that leave [download]
    are those outside [Exception]: one raised while the pipeline call
    blocks goes through both [except] clauses unanswered and unlogged,
    after the temporary directory has been removed. *)
Theorem download_exception_translation (API_KEY : option string)
    (env : Interrupt.environment) (request : Request) (w : world)
    (d : list (string * pyval)) :
  unauthorized API_KEY request = false ->
  json_body request = JsonOk (PyDict d) ->
  truthy (dict_get d "url") = true ->
  (forall e w1 t,
     Interrupt.download_body env request w = (inr (Interrupt.Raised e), w1, t) ->
     Interrupt.download API_KEY env request w =
       (inl match e with
            | DownloadError msg => error_response 400 "Download failed" msg
            | OtherError _ msg => error_response 500 "Internal server error" msg
            end, w1, t ++ [logged e]))
  /\ (forall temp_dir l e,
        (mkdtemp (Interrupt.process env) w).1.1 = inl temp_dir ->
        Interrupt.interrupted env (ydl_opts (os_path_join temp_dir "audio.%(ext)s"))
          (dict_get d "url") = None ->
        run_pipeline (Interrupt.process env)
          (ydl_opts (os_path_join temp_dir "audio.%(ext)s")) (dict_get d "url")
        = (l, Some e) ->
        (Interrupt.download API_KEY env request w).1.1 =
          inl match e with
              | DownloadError msg => error_response 400 "Download failed" msg
              | OtherError _ msg => error_response 500 "Internal server error" msg
              end)
  /\ (forall temp_dir l,
        (mkdtemp (Interrupt.process env) w).1.1 = inl temp_dir ->
        Interrupt.interrupted env (ydl_opts (os_path_join temp_dir "audio.%(ext)s"))
          (dict_get d "url") = None ->
        run_pipeline (Interrupt.process env)
          (ydl_opts (os_path_join temp_dir "audio.%(ext)s")) (dict_get d "url")
        = (l, None) ->
        lookup_entry "audio.mp3" l = None ->
        List.find (fun e => fnmatch "audio.*" e.1) l = None ->
        (Interrupt.download API_KEY env request w).1.1 =
          inl (error_response 500 "Internal server error" "Downloaded file not found"))
  /\ (forall e, (mkdtemp (Interrupt.process env) w).1.1 = inr e ->
        (Interrupt.download API_KEY env request w).1.1 =
          inl (error_response 500 "Internal server error" (str_exn e)))
  /\ (forall r w1 t,
        Interrupt.download API_KEY env request w = (inr r, w1, t) ->
        exists cls msg, r = Interrupt.RaisedBase cls msg)
  /\ (forall temp_dir cls msg,
        (mkdtemp (Interrupt.process env) w).1.1 = inl temp_dir ->
        Interrupt.interrupted env (ydl_opts (os_path_join temp_dir "audio.%(ext)s"))
          (dict_get d "url") = Some (cls, msg) ->
        Interrupt.download API_KEY env request w =
          (inr (Interrupt.RaisedBase cls msg), w,
           [EvLogInfo (LogDownloading (dict_get d "url"));
            EvMkdtemp temp_dir;
            EvExtractInfo (ydl_opts (os_path_join temp_dir "audio.%(ext)s"))
              (dict_get d "url");
            EvRmtree temp_dir])).
Proof.
  intros A J U.
  rewrite (interrupt_download_authorized _ _ _ A), interrupt_download_try_run.
  split; [|split; [|split; [|split; [|split]]]].
  - intros e w1 t E. rewrite E. destruct e; reflexivity.
  - intros temp_dir l e Hm Hi Hp.
    destruct (mkdtemp (Interrupt.process env) w) as [[r w1] t1] eqn:Hm'.
    cbn in Hm. subst r.
    rewrite (interrupt_download_body_extraction _ _ _ d temp_dir w1 t1 J U Hm'), Hi, Hp.
    destruct e; reflexivity.
  - intros temp_dir l Hm Hi Hp E F.
    destruct (mkdtemp (Interrupt.process env) w) as [[r w1] t1] eqn:Hm'.
    cbn in Hm. subst r.
    rewrite (interrupt_download_body_extraction _ _ _ d temp_dir w1 t1 J U Hm'), Hi, Hp.
    unfold discovered. rewrite E, F. reflexivity.
  - intros e Hm.
    destruct (mkdtemp (Interrupt.process env) w) as [[r w1] t1] eqn:Hm'.
    cbn in Hm. subst r.
    rewrite (interrupt_download_body_no_tempdir _ _ _ _ _ _ _ J U Hm').
    destruct (mkdtemp_raises _ _ _ _ _ Hm') as (-> & _). reflexivity.
  - intros r w1 t.
    destruct (Interrupt.download_body env request w) as [[[r'|[e|cls msg]] w2] t2];
      [discriminate|discriminate|].
    intros [= <- _ _]. eauto.
  - intros temp_dir cls msg Hm Hi.
    destruct (mkdtemp (Interrupt.process env) w) as [[r w1] t1] eqn:Hm'.
    cbn in Hm. subst r.
    rewrite (interrupt_download_body_extraction _ _ _ d temp_dir w1 t1 J U Hm'), Hi.
    reflexivity.
Qed.

Lemma download_exception_translation_witness :
  (unauthorized None (Sample.good None) = false
   /\ json_body (Sample.good None) = JsonOk (PyDict [("url", Sample.url)])
   /\ truthy (dict_get [("url", Sample.url)] "url") = true)
  /\ (Interrupt.download None (Interrupt.undisturbed (Sample.env Sample.rejected))
        (Sample.good None) Sample.busy_world).1.1
     = inl (error_response 400 "Download failed"
              "ERROR: Unsupported URL: https://example.invalid/")
  /\ (Interrupt.download None (Interrupt.undisturbed (Sample.env Sample.crashed))
        (Sample.good None) Sample.busy_world).1.1
     = inl (error_response 500 "Internal server error"
              "[Errno 28] No space left on device")
  /\ (Interrupt.download None (Interrupt.undisturbed (Sample.env Sample.nothing_written))
        (Sample.good None) Sample.busy_world).1.1
     = inl (error_response 500 "Internal server error" "Downloaded file not found")
  /\ (Interrupt.download None (Interrupt.undisturbed Sample.exhausted)
        (Sample.good None) Sample.busy_world).1.1
     = inl (error_response 500 "Internal server error"
              "[Errno 17] No usable temporary directory name found")
  /\ Interrupt.download None Interrupt.worker_stopped (Sample.good None)
       Sample.busy_world
     = (inr (Interrupt.RaisedBase "SystemExit" "1"), Sample.busy_world,
        [EvLogInfo (LogDownloading Sample.url);
         EvMkdtemp "/tmp/tmpq0w2e4rt";
         EvExtractInfo (ydl_opts ("/tmp/tmpq0w2e4rt", "audio.%(ext)s")) Sample.url;
         EvRmtree "/tmp/tmpq0w2e4rt"]).
Proof.
  split; [repeat split; reflexivity|].
  split; [|split; [|split; [|split]]].
  - apply (proj1 (proj2 (download_exception_translation None
                    (Interrupt.undisturbed (Sample.env Sample.rejected))
                    (Sample.good None) Sample.busy_world [("url", Sample.url)]
                    eq_refl eq_refl eq_refl))
             "/tmp/tmpq0w2e4rt" []
             (DownloadError "ERROR: Unsupported URL: https://example.invalid/")).
    + vm_compute. reflexivity.
    + reflexivity.
    + reflexivity.
  - apply (proj1 (proj2 (download_exception_translation None
                    (Interrupt.undisturbed (Sample.env Sample.crashed))
                    (Sample.good None) Sample.busy_world [("url", Sample.url)]
                    eq_refl eq_refl eq_refl))
             "/tmp/tmpq0w2e4rt" [("audio.webm.part", [x1a])]
             (OtherError "OSError" "[Errno 28] No space left on device")).
    + vm_compute. reflexivity.
    + reflexivity.
    + reflexivity.
  - apply (proj1 (proj2 (proj2 (download_exception_translation None
                    (Interrupt.undisturbed (Sample.env Sample.nothing_written))
                    (Sample.good None) Sample.busy_world [("url", Sample.url)]
                    eq_refl eq_refl eq_refl)))
             "/tmp/tmpq0w2e4rt" [("cover.jpg", [xff])]).
    + vm_compute. reflexivity.
    + reflexivity.
    + reflexivity.
    + reflexivity.
    + reflexivity.
  - apply (proj1 (proj2 (proj2 (proj2 (download_exception_translation None
                    (Interrupt.undisturbed Sample.exhausted)
                    (Sample.good None) Sample.busy_world [("url", Sample.url)]
                    eq_refl eq_refl eq_refl))))
             (OtherError "FileExistsError"
                "[Errno 17] No usable temporary directory name found")).
    reflexivity.
  - apply (proj2 (proj2 (proj2 (proj2 (proj2 (download_exception_translation None
                    Interrupt.worker_stopped
                    (Sample.good None) Sample.busy_world [("url", Sample.url)]
                    eq_refl eq_refl eq_refl)))))
             "/tmp/tmpq0w2e4rt" "SystemExit" "1").
    + vm_compute. reflexivity.
    + reflexivity.
Defined.

(** C4. For a request that reaches the extraction step, whatever the
    pipeline then does (return, raise DownloadError, raise anything else)
    and whatever output discovery finds: the temporary directory is new,
    [rmtree] of it is in the trace of the view after its creation, followed
    by log records only; when the view returns the directory map is what it
    was before the request, without that directory; and once the response
    has been sent the whole world, open descriptors included, is what it was
    before the request. *)
Theorem tempdir_removed_on_every_exit (API_KEY : option string) (env : environment)
    (request : Request) (w : world) (d : list (string * pyval)) (temp_dir : string) :
  unauthorized API_KEY request = false ->
  json_body request = JsonOk (PyDict d) ->
  truthy (dict_get d "url") = true ->
  (mkdtemp env w).1.1 = inl temp_dir ->
  fs w !! temp_dir = None
  /\ fs (download API_KEY env request w).1.2 = fs w
  /\ fs (download API_KEY env request w).1.2 !! temp_dir = None
  /\ (exists t0 t1,
        (download API_KEY env request w).2 = t0 ++ EvRmtree temp_dir :: t1
        /\ In (EvMkdtemp temp_dir) t0
        /\ forallb is_log t1 = true)
  /\ (serve (download API_KEY env request) w).1.2 = w.
Proof.
  intros A J U Hm.
  pose proof (tempdir_is_new env w temp_dir Hm) as New.
  assert (F : fs (download API_KEY env request w).1.2 = fs w).
  { destruct (download_returns env request w API_KEY) as (r & w1 & t & E & F & _).
    rewrite E. exact F. }
  split; [exact New|]. split; [exact F|]. split; [rewrite F; exact New|].
  rewrite (serve_extraction env request w API_KEY d temp_dir A J U Hm).
  rewrite (download_extraction env request w API_KEY d temp_dir A J U Hm).
  destruct (run_pipeline env _ _) as [l [e|]]; [|destruct (discovered l) as [[n c]|]].
  - split; [|reflexivity].
    eexists [_; _; _], [_]. split; [reflexivity|]. split; [cbn; auto|].
    destruct e; reflexivity.
  - split; [|reflexivity].
    eexists [_; _; _; _; _], []. split; [reflexivity|]. split; [cbn; auto|reflexivity].
  - split; [|reflexivity].
    eexists [_; _; _], [_]. split; [reflexivity|]. split; [cbn; auto|reflexivity].
Qed.

Lemma tempdir_removed_on_every_exit_witness :
  (unauthorized None (Sample.good None) = false
   /\ json_body (Sample.good None) = JsonOk (PyDict [("url", Sample.url)])
   /\ truthy (dict_get [("url", Sample.url)] "url") = true
   /\ (mkdtemp (Sample.env Sample.transcoded) Sample.busy_world).1.1
      = inl "/tmp/tmpq0w2e4rt")
  /\ (serve (download None (Sample.env Sample.transcoded) (Sample.good None))
        Sample.busy_world).1.2 = Sample.busy_world
  /\ (serve (download None (Sample.env Sample.rejected) (Sample.good None))
        Sample.busy_world).1.2 = Sample.busy_world
  /\ (serve (download None (Sample.env Sample.crashed) (Sample.good None))
        Sample.busy_world).1.2 = Sample.busy_world
  /\ fs (download None (Sample.env Sample.untranscoded) (Sample.good None)
           Sample.busy_world).1.2 !! "/tmp/tmpq0w2e4rt" = None.
Proof.
  split; [repeat split; try reflexivity; vm_compute; reflexivity|].
  split; [|split; [|split]].
  - apply (tempdir_removed_on_every_exit None (Sample.env Sample.transcoded)
             (Sample.good None) Sample.busy_world [("url", Sample.url)]
             "/tmp/tmpq0w2e4rt" eq_refl eq_refl eq_refl).
    vm_compute. reflexivity.
  - apply (tempdir_removed_on_every_exit None (Sample.env Sample.rejected)
             (Sample.good None) Sample.busy_world [("url", Sample.url)]
             "/tmp/tmpq0w2e4rt" eq_refl eq_refl eq_refl).
    vm_compute. reflexivity.
  - apply (tempdir_removed_on_every_exit None (Sample.env Sample.crashed)
             (Sample.good None) Sample.busy_world [("url", Sample.url)]
             "/tmp/tmpq0w2e4rt" eq_refl eq_refl eq_refl).
    vm_compute. reflexivity.
  - apply (tempdir_removed_on_every_exit None (Sample.env Sample.untranscoded)
             (Sample.good None) Sample.busy_world [("url", Sample.url)]
             "/tmp/tmpq0w2e4rt" eq_refl eq_refl eq_refl).
    vm_compute. reflexivity.
Defined.

(** C5. After a pipeline call that returned: if [audio.mp3] is in the
    temporary directory it is the file opened and its bytes are the body
    of the 200 response; otherwise the first entry, in listing order,
    whose name matches [audio.*] is; with no such entry nothing is opened
    and the answer is the 500 for "Downloaded file not found". *)
Theorem output_discovery (API_KEY : option string) (env : environment)
    (request : Request) (w : world) (d : list (string * pyval)) (temp_dir : string)
    (l : listing) :
  unauthorized API_KEY request = false ->
  json_body request = JsonOk (PyDict d) ->
  truthy (dict_get d "url") = true ->
  (mkdtemp env w).1.1 = inl temp_dir ->
  run_pipeline env (ydl_opts (os_path_join temp_dir "audio.%(ext)s")) (dict_get d "url")
  = (l, None) ->
  (forall c, lookup_entry "audio.mp3" l = Some c ->
     (serve (download API_KEY env request) w).1.1 = Some (wire_audio c)
     /\ In (EvOpen (temp_dir, "audio.mp3") (fresh (dom (open_files w))))
          (serve (download API_KEY env request) w).2)
  /\ (forall n c, lookup_entry "audio.mp3" l = None ->
        List.find (fun e => fnmatch "audio.*" e.1) l = Some (n, c) ->
        (serve (download API_KEY env request) w).1.1 = Some (wire_audio c)
        /\ In (EvOpen (temp_dir, n) (fresh (dom (open_files w))))
             (serve (download API_KEY env request) w).2)
  /\ (lookup_entry "audio.mp3" l = None ->
      List.find (fun e => fnmatch "audio.*" e.1) l = None ->
      (serve (download API_KEY env request) w).1.1
      = Some (wire_json 500 [("error", "Internal server error");
                             ("details", "Downloaded file not found")])
      /\ forall p fd, ~ In (EvOpen p fd) (serve (download API_KEY env request) w).2).
Proof.
  intros A J U Hm Hp.
  rewrite (serve_extraction env request w API_KEY d temp_dir A J U Hm), Hp.
  unfold discovered.
  split; [|split].
  - intros c E. rewrite E. split; [reflexivity|]. cbn. auto 10.
  - intros n c E F. rewrite E, F. split; [reflexivity|]. cbn. auto 10.
  - intros E F. rewrite E, F. split; [reflexivity|].
    intros p fd H. cbn in H. intuition discriminate.
Qed.

Lemma output_discovery_witness :
  (unauthorized None (Sample.good None) = false
   /\ json_body (Sample.good None) = JsonOk (PyDict [("url", Sample.url)])
   /\ truthy (dict_get [("url", Sample.url)] "url") = true
   /\ (mkdtemp (Sample.env Sample.transcoded) Sample.busy_world).1.1
      = inl "/tmp/tmpq0w2e4rt")
  /\ (serve (download None (Sample.env Sample.transcoded) (Sample.good None))
        Sample.busy_world).1.1 = Some (wire_audio Sample.mp3)
  /\ (serve (download None (Sample.env Sample.untranscoded) (Sample.good None))
        Sample.busy_world).1.1 = Some (wire_audio Sample.webm)
  /\ (serve (download None (Sample.env Sample.nothing_written) (Sample.good None))
        Sample.busy_world).1.1
     = Some (wire_json 500 [("error", "Internal server error");
                            ("details", "Downloaded file not found")]).
Proof.
  split; [repeat split; try reflexivity; vm_compute; reflexivity|].
  split; [|split].
  - apply (proj1 (output_discovery None (Sample.env Sample.transcoded)
                    (Sample.good None) Sample.busy_world [("url", Sample.url)]
                    "/tmp/tmpq0w2e4rt" [("audio.mp3", Sample.mp3)]
                    eq_refl eq_refl eq_refl ltac:(vm_compute; reflexivity) eq_refl)
             Sample.mp3 eq_refl).
  - apply (proj1 (proj2 (output_discovery None (Sample.env Sample.untranscoded)
                    (Sample.good None) Sample.busy_world [("url", Sample.url)]
                    "/tmp/tmpq0w2e4rt" (fst Sample.untranscoded)
                    eq_refl eq_refl eq_refl ltac:(vm_compute; reflexivity) eq_refl))
             "audio.webm" Sample.webm eq_refl eq_refl).
  - apply (proj2 (proj2 (output_discovery None (Sample.env Sample.nothing_written)
                    (Sample.good None) Sample.busy_world [("url", Sample.url)]
                    "/tmp/tmpq0w2e4rt" (fst Sample.nothing_written)
                    eq_refl eq_refl eq_refl ltac:(vm_compute; reflexivity) eq_refl))
             eq_refl eq_refl).
Defined.

(** C8, as stated, fails: on a successful request the directory is removed
    while the file is only open; its bytes are read when the response is
    sent, after the removal. *)
Lemma file_read_after_cleanup :
  (serve (download None (Sample.env Sample.transcoded) (Sample.good None))
     Sample.empty_world).1.1 = Some (wire_audio Sample.mp3)
  /\ (serve (download None (Sample.env Sample.transcoded) (Sample.good None))
        Sample.empty_world).2 !! 5 = Some (EvRmtree "/tmp/tmpk3x9ab_1")
  /\ (serve (download None (Sample.env Sample.transcoded) (Sample.good None))
        Sample.empty_world).2 !! 7 = Some (EvRead 0)
  /\ ~ read_before_cleanup
         (serve (download None (Sample.env Sample.transcoded) (Sample.good None))
            Sample.empty_world).2.
Proof.
  assert (R : (serve (download None (Sample.env Sample.transcoded) (Sample.good None))
                 Sample.empty_world).2 !! 5 = Some (EvRmtree "/tmp/tmpk3x9ab_1"))
    by (vm_compute; reflexivity).
  assert (D : (serve (download None (Sample.env Sample.transcoded) (Sample.good None))
                 Sample.empty_world).2 !! 7 = Some (EvRead 0))
    by (vm_compute; reflexivity).
  split; [vm_compute; reflexivity|]. split; [exact R|]. split; [exact D|].
  intros H. specialize (H 5 7 _ _ R D). lia.
Qed.

(** C8, amended. On the success path the view logs, creates the
    directory, runs the pipeline to its end, logs, has [send_file] open the
    located file, removes the directory and returns; only then does the
    response begin, and the file's bytes, as the pipeline left them, are
    read from the open descriptor and sent. The file is opened, not read,
    before the directory is removed. *)
Theorem success_path_order (API_KEY : option string) (env : environment)
    (request : Request) (w : world) (d : list (string * pyval)) (temp_dir : string)
    (l : listing) (n : string) (c : bytes) :
  unauthorized API_KEY request = false ->
  json_body request = JsonOk (PyDict d) ->
  truthy (dict_get d "url") = true ->
  (mkdtemp env w).1.1 = inl temp_dir ->
  run_pipeline env (ydl_opts (os_path_join temp_dir "audio.%(ext)s")) (dict_get d "url")
  = (l, None) ->
  discovered l = Some (n, c) ->
  lookup_entry n l = Some c
  /\ download API_KEY env request w =
       (inl (audio_response (fresh (dom (open_files w)))),
        set_open_files (insert (fresh (dom (open_files w))) c) w,
        [EvLogInfo (LogDownloading (dict_get d "url"));
         EvMkdtemp temp_dir;
         EvExtractInfo (ydl_opts (os_path_join temp_dir "audio.%(ext)s")) (dict_get d "url");
         EvLogInfo (LogComplete (temp_dir, n));
         EvOpen (temp_dir, n) (fresh (dom (open_files w)));
         EvRmtree temp_dir])
  /\ serve (download API_KEY env request) w =
       (Some (wire_audio c), w,
        [EvLogInfo (LogDownloading (dict_get d "url"));
         EvMkdtemp temp_dir;
         EvExtractInfo (ydl_opts (os_path_join temp_dir "audio.%(ext)s")) (dict_get d "url");
         EvLogInfo (LogComplete (temp_dir, n));
         EvOpen (temp_dir, n) (fresh (dom (open_files w)));
         EvRmtree temp_dir;
         EvStartResponse 200;
         EvRead (fresh (dom (open_files w)));
         EvClose (fresh (dom (open_files w)))]).
Proof.
  intros A J U Hm Hp D.
  split; [|split].
  - unfold discovered in D.
    destruct (lookup_entry "audio.mp3" l) as [c'|] eqn:E.
    + injection D as <- <-. exact E.
    + apply (find_first_lookup (fnmatch "audio.*")), D.
  - rewrite (download_extraction env request w API_KEY d temp_dir A J U Hm), Hp, D.
    reflexivity.
  - rewrite (serve_extraction env request w API_KEY d temp_dir A J U Hm), Hp, D.
    reflexivity.
Qed.

Lemma success_path_order_witness :
  (unauthorized (Some "s3cret") (Sample.good (Some "Bearer s3cret")) = false
   /\ json_body (Sample.good (Some "Bearer s3cret")) = JsonOk (PyDict [("url", Sample.url)])
   /\ truthy (dict_get [("url", Sample.url)] "url") = true
   /\ (mkdtemp (Sample.env Sample.untranscoded) Sample.busy_world).1.1
      = inl "/tmp/tmpq0w2e4rt"
   /\ discovered (fst Sample.untranscoded) = Some ("audio.webm", Sample.webm))
  /\ serve (download (Some "s3cret") (Sample.env Sample.untranscoded)
              (Sample.good (Some "Bearer s3cret"))) Sample.busy_world =
       (Some (wire_audio Sample.webm), Sample.busy_world,
        [EvLogInfo (LogDownloading Sample.url);
         EvMkdtemp "/tmp/tmpq0w2e4rt";
         EvExtractInfo (ydl_opts ("/tmp/tmpq0w2e4rt", "audio.%(ext)s")) Sample.url;
         EvLogInfo (LogComplete ("/tmp/tmpq0w2e4rt", "audio.webm"));
         EvOpen ("/tmp/tmpq0w2e4rt", "audio.webm") (fresh (dom (open_files Sample.busy_world)));
         EvRmtree "/tmp/tmpq0w2e4rt";
         EvStartResponse 200;
         EvRead (fresh (dom (open_files Sample.busy_world)));
         EvClose (fresh (dom (open_files Sample.busy_world)))]).
Proof.
  split; [repeat split; try reflexivity; vm_compute; reflexivity|].
  apply (success_path_order (Some "s3cret") (Sample.env Sample.untranscoded)
           (Sample.good (Some "Bearer s3cret")) Sample.busy_world [("url", Sample.url)]
           "/tmp/tmpq0w2e4rt" (fst Sample.untranscoded) "audio.webm" Sample.webm
           eq_refl eq_refl eq_refl ltac:(vm_compute; reflexivity) eq_refl eq_refl).
Defined.

(** * Further properties of [download] *)

(** ** The ways through the view *)

Section ways.

Variable API_KEY : option string.
Variable env : environment.
Variable request : Request.
Variable w : world.

(** A request is turned away at the door, fails before a temporary
    directory exists, or reaches the extraction step. *)
Lemma download_cases :
  (unauthorized API_KEY request = true
   /\ download API_KEY env request w = (inl unauthorized_response, w, []))
  \/ (unauthorized API_KEY request = false
      /\ (exists d, json_body request = JsonOk (PyDict d)
                    /\ truthy (dict_get d "url") = false)
      /\ download API_KEY env request w = (inl no_url_response, w, []))
  \/ (unauthorized API_KEY request = false
      /\ (forall d, json_body request <> JsonOk (PyDict d))
      /\ exists cls msg,
           download API_KEY env request w =
             (inl (translated (OtherError cls msg)), w, [logged (OtherError cls msg)]))
  \/ (unauthorized API_KEY request = false
      /\ exists d e,
           json_body request = JsonOk (PyDict d)
           /\ truthy (dict_get d "url") = true
           /\ (mkdtemp env w).1.1 = inr e
           /\ download API_KEY env request w =
                (inl (translated e), w,
                 [EvLogInfo (LogDownloading (dict_get d "url")); logged e]))
  \/ (unauthorized API_KEY request = false
      /\ exists d temp_dir,
           json_body request = JsonOk (PyDict d)
           /\ truthy (dict_get d "url") = true
           /\ (mkdtemp env w).1.1 = inl temp_dir).
Proof.
  destruct (unauthorized API_KEY request) eqn:A.
  { left. split; [reflexivity|]. apply download_unauthorized, A. }
  right.
  rewrite (download_authorized _ _ _ A), download_try_run.
  destruct (json_body request) as [data|cls msg] eqn:J.
  2:{ right; left. split; [reflexivity|]. split; [discriminate|].
      exists cls, msg. rewrite (download_body_json_raises _ _ _ _ _ J). reflexivity. }
  destruct data as [ | | | | | |d];
    try (right; left; split; [reflexivity|]; split; [discriminate|];
         do 2 eexists;
         rewrite (download_body_not_dict _ _ _ _ J ltac:(discriminate)); reflexivity).
  destruct (truthy (dict_get d "url")) eqn:U.
  2:{ left. split; [reflexivity|]. split; [eauto|].
      rewrite (download_body_no_url _ _ _ _ J U). reflexivity. }
  right; right.
  destruct (mkdtemp env w) as [[[temp_dir|e] w1] t1] eqn:Hm.
  - right. split; [reflexivity|]. eauto.
  - left. split; [reflexivity|]. exists d, e.
    rewrite (download_body_no_tempdir _ _ _ _ _ _ _ J U Hm).
    destruct (mkdtemp_raises _ _ _ _ _ Hm) as (-> & _). auto.
Qed.

End ways.

(** ** Statelessness *)

(** X1. Whatever the request and however it ends, once the response has
    been sent the world (directories and open descriptors) is what it was
    before the request; so a later request is served exactly as if the
    earlier one had never been made. *)
Theorem served_request_restores_world (API_KEY : option string) (env env' : environment)
    (request request' : Request) (w : world) :
  (serve (download API_KEY env request) w).1.2 = w
  /\ serve (download API_KEY env' request')
       (serve (download API_KEY env request) w).1.2
     = serve (download API_KEY env' request') w.
Proof.
  assert (R : (serve (download API_KEY env request) w).1.2 = w).
  { destruct (download_cases API_KEY env request w)
      as [(_ & E)|[(_ & _ & E)|[(_ & _ & cls & msg & E)|[(_ & d & e & _ & _ & _ & E)
         |(A & d & temp_dir & J & U & Hm)]]]].
    - unfold serve. rewrite E. reflexivity.
    - unfold serve. rewrite E. reflexivity.
    - unfold serve. rewrite E. reflexivity.
    - unfold serve. rewrite E. destruct e; reflexivity.
    - rewrite (serve_extraction env request w API_KEY d temp_dir A J U Hm).
      destruct (run_pipeline env _ _) as [l [e|]]; [reflexivity|].
      destruct (discovered l) as [[n c]|]; reflexivity. }
  split; [exact R|]. rewrite R. reflexivity.
Qed.

(** ** The pipeline call *)

(** X2. A request that reaches the extraction step calls [extract_info]
    exactly once, with the URL exactly as it came in the body (whatever its
    JSON type) and the fixed options: best audio, FFmpegExtractAudio to mp3
    at 192, quiet, no warnings, no flat extraction, and the output template
    [audio.%(ext)s] in the request's own temporary directory. *)
Theorem extract_info_called_once (API_KEY : option string) (env : environment)
    (request : Request) (w : world) (d : list (string * pyval)) (temp_dir : string) :
  unauthorized API_KEY request = false ->
  json_body request = JsonOk (PyDict d) ->
  truthy (dict_get d "url") = true ->
  (mkdtemp env w).1.1 = inl temp_dir ->
  List.filter is_extract_info (download API_KEY env request w).2 =
    [EvExtractInfo
       {| format := "bestaudio/best";
          postprocessors := [ {| key := "FFmpegExtractAudio";
                                 preferredcodec := "mp3";
                                 preferredquality := "192" |} ];
          outtmpl := (temp_dir, "audio.%(ext)s");
          quiet := true;
          no_warnings := true;
          extract_flat := false |}
       (dict_get d "url")].
Proof.
  intros A J U Hm.
  rewrite (download_extraction env request w API_KEY d temp_dir A J U Hm).
  destruct (run_pipeline env _ _) as [l [e|]]; [destruct e; reflexivity|].
  destruct (discovered l) as [[n c]|]; reflexivity.
Qed.

Lemma extract_info_called_once_witness :
  (unauthorized None (Sample.post None (JsonOk (PyDict [("url", PyInt 7)]))) = false
   /\ truthy (dict_get [("url", PyInt 7)] "url") = true
   /\ (mkdtemp (Sample.env Sample.rejected) Sample.busy_world).1.1
      = inl "/tmp/tmpq0w2e4rt")
  /\ List.filter is_extract_info
       (download None (Sample.env Sample.rejected)
          (Sample.post None (JsonOk (PyDict [("url", PyInt 7)]))) Sample.busy_world).2 =
     [EvExtractInfo
        {| format := "bestaudio/best";
           postprocessors := [ {| key := "FFmpegExtractAudio";
                                  preferredcodec := "mp3";
                                  preferredquality := "192" |} ];
           outtmpl := ("/tmp/tmpq0w2e4rt", "audio.%(ext)s");
           quiet := true;
           no_warnings := true;
           extract_flat := false |}
        (PyInt 7)].
Proof.
  split; [repeat split; try reflexivity; vm_compute; reflexivity|].
  apply (extract_info_called_once None (Sample.env Sample.rejected)
           (Sample.post None (JsonOk (PyDict [("url", PyInt 7)]))) Sample.busy_world
           [("url", PyInt 7)] "/tmp/tmpq0w2e4rt" eq_refl eq_refl eq_refl).
  vm_compute. reflexivity.
Defined.

(** X3. A request that is unauthorized, or whose body gives no truthy
    [url] (not JSON, not an object, key missing, value falsy), or for which
    no temporary directory can be created, is answered without touching
    anything: the world is unchanged when the view returns, the trace holds
    log records only (no directory is created, the pipeline is not run,
    no file is opened), and the status is not 200. *)
Theorem nothing_done_before_extraction (API_KEY : option string) (env : environment)
    (request : Request) (w : world) :
  unauthorized API_KEY request = true
  \/ (forall d, json_body request = JsonOk (PyDict d) -> truthy (dict_get d "url") = false)
  \/ (exists e, (mkdtemp env w).1.1 = inr e) ->
  exists r t,
    download API_KEY env request w = (inl r, w, t)
    /\ forallb is_log t = true
    /\ status r <> 200.
Proof.
  intros H.
  destruct (download_cases API_KEY env request w)
    as [(_ & E)|[(_ & _ & E)|[(_ & _ & cls & msg & E)|[(_ & d & e & _ & _ & _ & E)
       |(A & d & temp_dir & J & U & Hm)]]]].
  - rewrite E. do 2 eexists. split; [reflexivity|]. split; [reflexivity|discriminate].
  - rewrite E. do 2 eexists. split; [reflexivity|]. split; [reflexivity|discriminate].
  - rewrite E. do 2 eexists. split; [reflexivity|]. split; [reflexivity|discriminate].
  - rewrite E. do 2 eexists. split; [reflexivity|].
    split; destruct e; (reflexivity || discriminate).
  - exfalso. destruct H as [H|[H|(e & H)]].
    + congruence.
    + specialize (H d J). congruence.
    + congruence.
Qed.

Lemma nothing_done_before_extraction_witness :
  (unauthorized (Some "s3cret") (Sample.good (Some "Basic s3cret")) = true
   /\ exists r t,
        download (Some "s3cret") (Sample.env Sample.transcoded)
          (Sample.good (Some "Basic s3cret")) Sample.busy_world
        = (inl r, Sample.busy_world, t)
        /\ forallb is_log t = true /\ status r <> 200)
  /\ (exists r t,
        download None (Sample.env Sample.transcoded)
          (Sample.post None (JsonOk (PyList []))) Sample.busy_world
        = (inl r, Sample.busy_world, t)
        /\ forallb is_log t = true /\ status r <> 200)
  /\ ((mkdtemp Sample.exhausted Sample.busy_world).1.1
      = inr (OtherError "FileExistsError"
               "[Errno 17] No usable temporary directory name found")
      /\ exists r t,
           download None Sample.exhausted (Sample.good None) Sample.busy_world
           = (inl r, Sample.busy_world, t)
           /\ forallb is_log t = true /\ status r <> 200).
Proof.
  split; [split; [reflexivity|]|split; [|split; [reflexivity|]]].
  - apply (nothing_done_before_extraction (Some "s3cret") (Sample.env Sample.transcoded)
             (Sample.good (Some "Basic s3cret")) Sample.busy_world).
    left. reflexivity.
  - apply (nothing_done_before_extraction None (Sample.env Sample.transcoded)
             (Sample.post None (JsonOk (PyList []))) Sample.busy_world).
    right; left. intros d H. discriminate H.
  - apply (nothing_done_before_extraction None Sample.exhausted
             (Sample.good None) Sample.busy_world).
    right; right. eexists. reflexivity.
Defined.

(** ** Logging and the shape of responses *)


(** X5. Every response of [download] is one of two kinds, never a mix:
    the 200 [audio/mpeg] attachment [audio.mp3] whose body is an open file,
    or a JSON object that has an [error] field, with status 400, 401 or
    500 and no attachment. *)
Theorem response_is_file_or_json_error (API_KEY : option string) (env : environment)
    (request : Request) (w : world) :
  exists r w1 t,
    download API_KEY env request w = (inl r, w1, t)
    /\ ((exists fd, r = {| status := 200; mimetype := "audio/mpeg";
                           attachment := Some "audio.mp3"; content := BodyFile fd |})
        \/ (exists obj summary,
              content r = BodyJson obj
              /\ json_field "error" obj = Some summary
              /\ mimetype r = "application/json"
              /\ attachment r = None
              /\ (status r = 400 \/ status r = 401 \/ status r = 500))).
Proof.
  destruct (download_cases API_KEY env request w)
    as [(_ & E)|[(_ & _ & E)|[(_ & _ & cls & msg & E)|[(_ & d & e & _ & _ & _ & E)
       |(A & d & temp_dir & J & U & Hm)]]]].
  - rewrite E. do 3 eexists. split; [reflexivity|]. right.
    do 2 eexists. cbn. repeat split; auto.
  - rewrite E. do 3 eexists. split; [reflexivity|]. right.
    do 2 eexists. cbn. repeat split; auto.
  - rewrite E. do 3 eexists. split; [reflexivity|]. right.
    do 2 eexists. cbn. repeat split; auto.
  - rewrite E. do 3 eexists. split; [reflexivity|]. right.
    destruct e; do 2 eexists; cbn; repeat split; auto.
  - rewrite (download_extraction env request w API_KEY d temp_dir A J U Hm).
    destruct (run_pipeline env _ _) as [l [e|]]; [|destruct (discovered l) as [[n c]|]].
    + do 3 eexists. split; [reflexivity|]. right.
      destruct e; do 2 eexists; cbn; repeat split; auto.
    + do 3 eexists. split; [reflexivity|]. left. eexists. reflexivity.
    + do 3 eexists. split; [reflexivity|]. right.
      do 2 eexists. cbn. repeat split; auto.
Qed.

(** ** What is opened *)

Lemma discovered_name (l : listing) (n : string) (c : bytes) :
  discovered l = Some (n, c) -> startswith n "audio." = true.
Proof.
  unfold discovered. destruct (lookup_entry "audio.mp3" l) as [c'|].
  - intros [= <- _]. reflexivity.
  - intros F. apply List.find_some in F as [_ F]. cbn [fst] in F.
    rewrite <- fnmatch_audio. exact F.
Qed.

(** X6. The only file [download] ever opens is an entry named [audio.*]
    of a directory that did not exist before the request and that the
    request created itself; no other path is opened, and none when the
    response is not the 200. *)
Theorem only_own_audio_entry_opened (API_KEY : option string) (env : environment)
    (request : Request) (w : world) (p : path) (fd : nat) :
  In (EvOpen p fd) (download API_KEY env request w).2 ->
  fs w !! p.1 = None
  /\ In (EvMkdtemp p.1) (download API_KEY env request w).2
  /\ startswith p.2 "audio." = true
  /\ List.filter (fun e => match e with EvOpen _ _ => true | _ => false end)
       (download API_KEY env request w).2 = [EvOpen p fd]
  /\ exists w1 t, download API_KEY env request w = (inl (audio_response fd), w1, t).
Proof.
  destruct (download_cases API_KEY env request w)
    as [(_ & E)|[(_ & _ & E)|[(_ & _ & cls & msg & E)|[(_ & d & e & _ & _ & _ & E)
       |(A & d & temp_dir & J & U & Hm)]]]].
  1-3: rewrite E; cbn; intuition discriminate.
  - rewrite E. destruct e; cbn; intuition discriminate.
  - pose proof (tempdir_is_new env w temp_dir Hm) as New.
    rewrite (download_extraction env request w API_KEY d temp_dir A J U Hm).
    destruct (run_pipeline env _ _) as [l [e|]];
      [|destruct (discovered l) as [[n c]|] eqn:D].
    + destruct e; cbn; intuition discriminate.
    + cbn. intros [H|[H|[H|[H|[H|[H|[]]]]]]]; try discriminate H.
      injection H as <- <-. cbn.
      split; [exact New|]. split; [auto|].
      split; [exact (discovered_name _ _ _ D)|]. split; [reflexivity|]. eauto.
    + cbn. intuition discriminate.
Qed.

Lemma only_own_audio_entry_opened_witness :
  In (EvOpen ("/tmp/tmpq0w2e4rt", "audio.webm") 1)
     (download None (Sample.env Sample.untranscoded) (Sample.good None)
        Sample.busy_world).2
  /\ fs Sample.busy_world !! "/tmp/tmpq0w2e4rt" = None
  /\ startswith "audio.webm" "audio." = true.
Proof.
  assert (H : In (EvOpen ("/tmp/tmpq0w2e4rt", "audio.webm") 1)
                (download None (Sample.env Sample.untranscoded) (Sample.good None)
                   Sample.busy_world).2).
  { vm_compute. auto 10. }
  split; [exact H|].
  pose proof (only_own_audio_entry_opened None (Sample.env Sample.untranscoded)
                (Sample.good None) Sample.busy_world
                ("/tmp/tmpq0w2e4rt", "audio.webm") 1 H) as (N & _ & S & _).
  split; [exact N | exact S].
Defined.



(** ** What the answer depends on *)

(** X8. Of a JSON object only the value under [url] is read: two
    requests with the same Authorization header whose bodies are objects
    with the same [url] value, whatever other keys they carry and in
    whatever order, get the same response with the same effects. *)
Theorem only_url_field_read (API_KEY : option string) (env : environment)
    (auth : option string) (d d' : list (string * pyval)) (w : world) :
  dict_get d "url" = dict_get d' "url" ->
  download API_KEY env {| authorization := auth; json_body := JsonOk (PyDict d) |} w
  = download API_KEY env {| authorization := auth; json_body := JsonOk (PyDict d') |} w.
Proof.
  intros H. unfold download.
  change (unauthorized API_KEY {| authorization := auth; json_body := JsonOk (PyDict d') |})
    with (unauthorized API_KEY {| authorization := auth; json_body := JsonOk (PyDict d) |}).
  destruct (unauthorized _ _); [reflexivity|].
  unfold download_try, try_except, download_body, get_json, py_get, bind, ret.
  cbn [json_body]. rewrite H. reflexivity.
Qed.

Lemma only_url_field_read_witness :
  dict_get [("quality", PyInt 320); ("url", Sample.url)] "url"
  = dict_get [("url", Sample.url); ("format", PyStr "flac")] "url"
  /\ download None (Sample.env Sample.transcoded)
       {| authorization := None;
          json_body := JsonOk (PyDict [("quality", PyInt 320); ("url", Sample.url)]) |}
       Sample.busy_world
     = download None (Sample.env Sample.transcoded)
         {| authorization := None;
            json_body := JsonOk (PyDict [("url", Sample.url); ("format", PyStr "flac")]) |}
         Sample.busy_world.
Proof.
  split; [reflexivity|].
  apply (only_url_field_read None (Sample.env Sample.transcoded) None
           [("quality", PyInt 320); ("url", Sample.url)]
           [("url", Sample.url); ("format", PyStr "flac")] Sample.busy_world eq_refl).
Defined.

(** ** Which requests get which status *)

(** X9. [download] answers 400 [{"error": "No URL provided"}] exactly for
    the requests that pass the auth check and whose body parses to a JSON
    object with a missing or falsy [url]; no other request gets that
    response. *)
Theorem no_url_response_iff (API_KEY : option string) (env : environment)
    (request : Request) (w : world) :
  (download API_KEY env request w).1.1 = inl no_url_response
  <-> unauthorized API_KEY request = false
      /\ exists d, json_body request = JsonOk (PyDict d)
                   /\ truthy (dict_get d "url") = false.
Proof.
  destruct (download_cases API_KEY env request w)
    as [(A & E)|[(A & (d & J & U) & E)|[(A & N & cls & msg & E)
       |[(A & d & e & J & U & _ & E)|(A & d & temp_dir & J & U & Hm)]]]].
  - rewrite E. split; [discriminate|]. intros [A' _]. congruence.
  - rewrite E. split; [eauto|reflexivity].
  - rewrite E. split; [discriminate|]. intros (_ & d & J & _). destruct (N d J).
  - rewrite E. split; [destruct e; discriminate|].
    intros (_ & d' & J' & U'). congruence.
  - rewrite (download_extraction env request w API_KEY d temp_dir A J U Hm).
    split.
    + destruct (run_pipeline env _ _) as [l [e|]];
        [destruct e; discriminate|destruct (discovered l) as [[n c]|]; discriminate].
    + intros (_ & d' & J' & U'). congruence.
Qed.

(** X10. [download] answers 401 exactly when a non-empty [API_KEY] is
    configured and the Authorization header is not ['Bearer ' + API_KEY]
    (absent, another scheme, another key, or anything added to it). *)
Theorem status_401_iff (API_KEY : option string) (env : environment)
    (request : Request) (w : world) :
  (exists r, (download API_KEY env request w).1.1 = inl r /\ status r = 401)
  <-> exists api_key,
        API_KEY = Some api_key
        /\ api_key <> ""
        /\ authorization request <> Some ("Bearer " +:+ api_key).
Proof.
  assert (K : unauthorized API_KEY request = true
              <-> exists api_key,
                    API_KEY = Some api_key /\ api_key <> ""
                    /\ authorization request <> Some ("Bearer " +:+ api_key)).
  { unfold unauthorized, headers_get_Authorization.
    destruct API_KEY as [api_key|].
    2:{ split; [discriminate|]. intros (k & H & _). discriminate. }
    destruct (String.eqb api_key "") eqn:Ek; cbn [negb].
    { apply String.eqb_eq in Ek. split; [discriminate|].
      intros (k & [= <-] & Hk & _). contradiction. }
    apply String.eqb_neq in Ek.
    destruct (negb _ || negb _) eqn:B.
    - split; [|reflexivity]. intros _. exists api_key.
      split; [reflexivity|]. split; [exact Ek|].
      intros Hauth. rewrite Hauth in B.
      assert (B' := proj2 (bearer_check ("Bearer " +:+ api_key) api_key) eq_refl).
      congruence.
    - split; [discriminate|]. intros (k & [= <-] & _ & Hne).
      apply bearer_check in B.
      destruct (authorization request) as [h|]; [congruence|].
      destruct api_key; [contradiction|discriminate]. }
  rewrite <- K. clear K.
  destruct (download_cases API_KEY env request w)
    as [(A & E)|[(A & _ & E)|[(A & _ & cls & msg & E)
       |[(A & d & e & _ & _ & _ & E)|(A & d & temp_dir & J & U & Hm)]]]].
  - rewrite E. split; [intros _; exact A|]. intros _. eexists. split; reflexivity.
  - rewrite E, A. split; [|discriminate]. intros (r & [= <-] & S). discriminate S.
  - rewrite E, A. split; [|discriminate]. intros (r & [= <-] & S). discriminate S.
  - rewrite E, A. split; [|discriminate].
    intros (r & [= <-] & S). destruct e; discriminate S.
  - rewrite (download_extraction env request w API_KEY d temp_dir A J U Hm), A.
    split; [|discriminate].
    destruct (run_pipeline env _ _) as [l [e|]];
      [|destruct (discovered l) as [[n c]|]];
      intros (r & [= <-] & S); try destruct e; discriminate S.
Qed.

(** X11. [download] answers 200 exactly when the request passes the auth
    check, its body is a JSON object with a truthy [url], a temporary
    directory could be created, the pipeline returned without raising, and
    it left [audio.mp3] or some entry named [audio.*] in that directory. *)
Theorem status_200_iff (API_KEY : option string) (env : environment)
    (request : Request) (w : world) :
  (exists r, (download API_KEY env request w).1.1 = inl r /\ status r = 200)
  <-> unauthorized API_KEY request = false
      /\ exists d temp_dir l n c,
           json_body request = JsonOk (PyDict d)
           /\ truthy (dict_get d "url") = true
           /\ (mkdtemp env w).1.1 = inl temp_dir
           /\ run_pipeline env (ydl_opts (os_path_join temp_dir "audio.%(ext)s"))
                (dict_get d "url") = (l, None)
           /\ discovered l = Some (n, c).
Proof.
  destruct (download_cases API_KEY env request w)
    as [(A & E)|[(A & (d & J & U) & E)|[(A & N & cls & msg & E)
       |[(A & d & e & J & U & Hm & E)|(A & d & temp_dir & J & U & Hm)]]]].
  - rewrite E. split; [intros (r & [= <-] & S); discriminate S|].
    intros (A' & _). congruence.
  - rewrite E. split; [intros (r & [= <-] & S); discriminate S|].
    intros (_ & d' & ? & ? & ? & ? & J' & U' & _). congruence.
  - rewrite E. split; [intros (r & [= <-] & S); discriminate S|].
    intros (_ & d' & ? & ? & ? & ? & J' & _). destruct (N d' J').
  - rewrite E. split; [intros (r & [= <-] & S); destruct e; discriminate S|].
    intros (_ & d' & ? & ? & ? & ? & _ & _ & Hm' & _). congruence.
  - rewrite (download_extraction env request w API_KEY d temp_dir A J U Hm).
    split.
    + intros (r & R & S). split; [exact A|]. exists d, temp_dir.
      destruct (run_pipeline env _ _) as [l [e|]] eqn:P.
      { injection R as <-. destruct e; discriminate S. }
      destruct (discovered l) as [[n c]|] eqn:D.
      * exists l, n, c. auto.
      * injection R as <-. discriminate S.
    + intros (_ & d' & temp_dir' & l & n & c & J' & U' & Hm' & P & D).
      assert (d' = d) by congruence. subst d'.
      assert (temp_dir' = temp_dir) by congruence. subst temp_dir'.
      rewrite P, D. eexists. split; reflexivity.
Qed.

(** ** Output discovery and listing order *)

Lemma lookup_entry_In (n : string) (l : listing) (c : bytes) :
  lookup_entry n l = Some c -> In (n, c) l.
Proof.
  induction l as [|[n' c'] l IH]; simpl; [discriminate|].
  destruct (String.eqb n' n) eqn:E.
  - apply String.eqb_eq in E. intros [= ->]. subst n'. left. reflexivity.
  - intros H. right. apply IH, H.
Qed.

(** X12. When exactly one entry of the temporary directory is named
    [audio.*], that entry is the one served, wherever the file system lists
    it and whatever else is in the directory: the order of the listing
    matters only among several such entries. *)
Theorem unique_match_served_in_any_order (API_KEY : option string) (env : environment)
    (request : Request) (w : world) (d : list (string * pyval)) (temp_dir : string)
    (l : listing) (n : string) (c : bytes) :
  unauthorized API_KEY request = false ->
  json_body request = JsonOk (PyDict d) ->
  truthy (dict_get d "url") = true ->
  (mkdtemp env w).1.1 = inl temp_dir ->
  run_pipeline env (ydl_opts (os_path_join temp_dir "audio.%(ext)s")) (dict_get d "url")
  = (l, None) ->
  In (n, c) l ->
  fnmatch "audio.*" n = true ->
  (forall n' c', In (n', c') l -> fnmatch "audio.*" n' = true -> (n', c') = (n, c)) ->
  (serve (download API_KEY env request) w).1.1 = Some (wire_audio c)
  /\ In (EvOpen (temp_dir, n) (fresh (dom (open_files w))))
       (serve (download API_KEY env request) w).2.
Proof.
  intros A J U Hm Hp Hin Hn Huniq.
  assert (D : discovered l = Some (n, c)).
  { unfold discovered.
    destruct (lookup_entry "audio.mp3" l) as [c'|] eqn:E.
    - apply lookup_entry_In in E.
      specialize (Huniq _ _ E eq_refl). injection Huniq as <- <-. reflexivity.
    - destruct (List.find _ l) as [[n' c']|] eqn:F.
      + apply List.find_some in F as [F1 F2]. cbn [fst] in F2.
        rewrite (Huniq _ _ F1 F2). reflexivity.
      + exfalso. pose proof (List.find_none _ _ F _ Hin) as N. cbn [fst] in N.
        congruence. }
  rewrite (serve_extraction env request w API_KEY d temp_dir A J U Hm), Hp, D.
  split; [reflexivity|]. cbn. auto 10.
Qed.

Lemma unique_match_served_in_any_order_witness :
  (unauthorized None (Sample.good None) = false
   /\ (mkdtemp (Sample.env ([("cover.jpg", [xff]); ("info.json", [x7b]);
                             ("audio.opus", Sample.webm)], None))
         Sample.busy_world).1.1 = inl "/tmp/tmpq0w2e4rt"
   /\ fnmatch "audio.*" "audio.opus" = true)
  /\ (serve (download None
               (Sample.env ([("cover.jpg", [xff]); ("info.json", [x7b]);
                             ("audio.opus", Sample.webm)], None))
               (Sample.good None)) Sample.busy_world).1.1
     = Some (wire_audio Sample.webm).
Proof.
  split; [repeat split; try reflexivity; vm_compute; reflexivity|].
  apply (unique_match_served_in_any_order None
           (Sample.env ([("cover.jpg", [xff]); ("info.json", [x7b]);
                         ("audio.opus", Sample.webm)], None))
           (Sample.good None) Sample.busy_world [("url", Sample.url)]
           "/tmp/tmpq0w2e4rt"
           [("cover.jpg", [xff]); ("info.json", [x7b]); ("audio.opus", Sample.webm)]
           "audio.opus" Sample.webm
           eq_refl eq_refl eq_refl ltac:(vm_compute; reflexivity) eq_refl).
  - cbn. auto.
  - reflexivity.
  - intros n' c' [H|[H|[H|[]]]] M; injection H as <- <-;
      [discriminate M | discriminate M | reflexivity].
Defined.
